(** * Trajectory: loading, validation, time indexing and gain unpacking

    A shallow embedding of [controllers/TrajectoryLibrary/Trajectory.cpp].

    - [double] is IEEE-754 binary64, the kernel's primitive float; the C
      library calls the source makes on doubles ([fmod], the conversion to
      [float], the conversion to [int]) are written out on the exact
      [spec_float] view of a double.
    - An Eigen matrix is its column count and the list of its rows; a
      coefficient access outside the matrix is undefined behaviour in the
      source and [None] here.
    - [exit(1)], the exceptions of [std::string::substr] and [std::stoi], and
      undefined behaviour are the three ways a load does not return; what
      the source writes to [std::cerr] before [exit(1)] is the payload of the
      failure, and the text sent to [std::cout] is an event log threaded
      through the load.
    - The CSV parser and [Trajectory.hpp] are not among the sources: a file
      is what the parser returns for it, and [IsTimeInvariant] follows the
      specification. *)

From Stdlib Require Import ZArith Lia Floats String Ascii.
From stdpp Require Import base option list strings.

Local Open Scope Z_scope.

(** ** Doubles and the C library calls on them *)

Definition double := float.

Module Double.

(** [std::numeric_limits<double>::epsilon()], 2^-52. *)
Definition epsilon : double := Eval vm_compute in Z.ldexp 1%float (-52).

(** The exact value [m * 2^e] as a double; used only where the value is
    representable, so no rounding happens. *)
Definition of_scaled (m e : Z) (szero : bool) : double :=
  SF2Prim (binary_normalize prec emax m e szero).

(** [int n = x]: conversion of a double to a 32-bit [int] truncates toward
    zero; it is undefined when the truncated value does not fit or [x] is
    not finite. *)
Definition INT_MIN : Z := -2147483648.
Definition INT_MAX : Z := 2147483647.

Definition in_int (v : Z) : bool := (INT_MIN <=? v) && (v <=? INT_MAX).

Definition trunc (x : double) : option Z :=
  match Prim2SF x with
  | S754_zero _ => Some 0
  | S754_finite s m e =>
      let mag := if 0 <=? e then Z.shiftl (Zpos m) e else Z.shiftr (Zpos m) (- e) in
      Some (if s then - mag else mag)
  | _ => None
  end.

Definition to_int (x : double) : option Z :=
  v ← trunc x; if in_int v then Some v else None.

(** [fmod(x, y)]: the exact remainder of [x / y] truncated toward zero,
    with the sign of [x]; NaN when [x] is infinite or [y] is zero. *)
Definition fmod (x y : double) : double :=
  match Prim2SF x, Prim2SF y with
  | S754_nan, _ | _, S754_nan => nan
  | S754_infinity _, _ => nan
  | _, S754_zero _ => nan
  | S754_zero _, _ => x
  | S754_finite _ _ _, S754_infinity _ => x
  | S754_finite sx mx ex, S754_finite _ my ey =>
      let e := Z.min ex ey in
      let r := Z.rem (Z.shiftl (Zpos mx) (ex - e)) (Z.shiftl (Zpos my) (ey - e)) in
      of_scaled (if sx then - r else r) e sx
  end.

(** [float r = x]: rounding of a double to binary32 (round to nearest,
    ties to even), read back as a double, which is exact. *)
Definition to_float (x : double) : double :=
  match Prim2SF x with
  | S754_finite s m e =>
      match binary_normalize 24 128 (if s then Zneg m else Zpos m) e s with
      | S754_finite s' m' e' => of_scaled (if s' then Zneg m' else Zpos m') e' s'
      | y => SF2Prim y
      end
  | _ => x
  end.

(** An [int] passed where a [double] is expected; exact for every 32-bit
    [int]. *)
Definition of_int (i : Z) : double := of_scaled i 0 false.

End Double.

Set Warnings "-inexact-float".

(** ** Eigen matrices and vectors *)

(** [Eigen::MatrixXd]: the column count and the rows, each of [cols]
    coefficients.  A default-constructed matrix is 0 x 0. *)
Record Matrix := { cols : Z; coeffs : list (list double) }.

Definition rows (m : Matrix) : Z := Z.of_nat (length (coeffs m)).

Definition empty_matrix : Matrix := {| cols := 0; coeffs := [] |}.

(** [m.resize(r, c)]: the new coefficients are uninitialised in Eigen; they
    are zero here.  Negative sizes are undefined. *)
Definition resize (r c : Z) : option Matrix :=
  if (0 <=? r) && (0 <=? c)
  then Some {| cols := c; coeffs := replicate (Z.to_nat r) (replicate (Z.to_nat c) 0%float) |}
  else None.

(** [m(r, c)] as an rvalue. *)
Definition coeff (m : Matrix) (r c : Z) : option double :=
  if (0 <=? r) && (0 <=? c)
  then row ← coeffs m !! Z.to_nat r; row !! Z.to_nat c
  else None.

(** [m(r, c) = v]. *)
Definition set_coeff (m : Matrix) (r c : Z) (v : double) : option Matrix :=
  if (0 <=? r) && (0 <=? c)
  then row ← coeffs m !! Z.to_nat r;
       _ ← row !! Z.to_nat c;
       Some {| cols := cols m;
               coeffs := <[Z.to_nat r := <[Z.to_nat c := v]> row]> (coeffs m) |}
  else None.

(** [m.row(i)] copied into a vector. *)
Definition matrix_row (m : Matrix) (i : Z) : option (list double) :=
  if 0 <=? i then coeffs m !! Z.to_nat i else None.

(** [v.tail(n)]: the last [n] coefficients. *)
Definition vector_tail (v : list double) (n : Z) : option (list double) :=
  if (0 <=? n) && (n <=? Z.of_nat (length v))
  then Some (drop (length v - Z.to_nat n) v)
  else None.

(** [v.segment(start, n)]: [n] coefficients from position [start]. *)
Definition vector_segment (v : list double) (start n : Z) : option (list double) :=
  if (0 <=? start) && (0 <=? n) && (start + n <=? Z.of_nat (length v))
  then Some (take (Z.to_nat n) (drop (Z.to_nat start) v))
  else None.

(** ** Files, as the two readers of the source see them *)

(** One CSV file on disk.  [line_count] is the number of lines [std::getline]
    reads from it (0 when it cannot be opened).  The CSV parser is an external
    library: [header_fields] is [None] when [CsvParser_getHeader] returns
    NULL and otherwise the field count of the header; [data_rows] are the
    rows [CsvParser_getRow] then returns, every field already through
    [atof]. *)
Record csv_file := {
  line_count : Z;
  header_fields : option nat;
  data_rows : list (list double)
}.

Definition missing_file : csv_file :=
  {| line_count := 0; header_fields := None; data_rows := [] |}.

Definition filesystem := string -> csv_file.

(** The parser never returns a header without fields: a line that parses
    has at least one field. *)
Definition headers_nonempty (fs : filesystem) : Prop :=
  forall filename n, header_fields (fs filename) = Some n -> (1 <= n)%nat.

(** ** Effects of a load *)

Inductive event :=
  | LoadingTrajectory (filename_prefix : string)  (* std::cout, line 32 *)
  | Loading (filename : string)                   (* std::cout, line 79 *)
  | ReadFile (filename : string)                  (* the file is opened and read *)
  | ParserError (filename : string)               (* printf, line 93 *)
  | DumpMatrix (m : Matrix).                      (* std::cout, line 123 *)

Inductive failure :=
  | OutOfRange                  (* std::out_of_range from substr or stoi *)
  | InvalidArgument             (* std::invalid_argument from stoi *)
  | GainColumns (dimension udimension expected found : Z)   (* exit(1), line 50 *)
  | AffineColumns (udimension expected found : Z)           (* exit(1), line 55 *)
  | RowCounts (x u k a : Z)                                 (* exit(1), line 65 *)
  | NonConstantDt (row_num : Z) (dt diff residual : double) (* exit(1), line 124 *)
  | Undefined.                  (* undefined behaviour *)

Inductive outcome (A : Type) :=
  | Done (a : A)
  | Stop (f : failure).
Arguments Done {A} a.
Arguments Stop {A} f.

(** A computation that writes events and then returns or stops. *)
Definition io (A : Type) : Type := list event * outcome A.

#[global] Instance io_ret : MRet io := fun A a => ([], Done a).

#[global] Instance io_bind : MBind io := fun A B k m =>
  match m with
  | (l, Done a) => let '(l', r) := k a in (l ++ l', r)
  | (l, Stop f) => (l, Stop f)
  end.

Definition emit (e : event) : io unit := ([e], Done tt).

Definition stop {A} (f : failure) : io A := ([], Stop f).

Definition defined {A} (o : option A) : io A :=
  match o with
  | Some a => mret a
  | None => stop Undefined
  end.

(** ** Loading one table: [Trajectory::LoadMatrixFromCSV] *)

Definition GetNumberOfLines (fs : filesystem) (filename : string) : Z :=
  line_count (fs filename).

(** The inner loop, lines 109-114: field [i] of the row goes to
    [matrix(row_num, i)]. *)
Fixpoint store_fields (matrix : Matrix) (row_num i : Z) (rowFields : list double)
  : option Matrix :=
  match rowFields with
  | [] => Some matrix
  | v :: rest =>
      matrix ← set_coeff matrix row_num i v;
      store_fields matrix row_num (i + 1) rest
  end.

Definition five_epsilon : double := Eval vm_compute in (5 * Double.epsilon)%float.

(** The [while] loop, lines 106-129, over the rows the parser still has to
    return; [dt_] is the member the loop assigns. *)
Fixpoint load_rows (pending : list (list double)) (row_num : Z)
    (matrix : Matrix) (dt_ : double) : io (Matrix * double) :=
  match pending with
  | [] => mret (matrix, dt_)
  | rowFields :: pending =>
      matrix ← defined (store_fields matrix row_num 0 rowFields);
      if row_num =? 1 then
        a ← defined (coeff matrix 1 0);
        b ← defined (coeff matrix 0 0);
        load_rows pending (row_num + 1) matrix (a - b)%float
      else if 1 <? row_num then
        a ← defined (coeff matrix row_num 0);
        b ← defined (coeff matrix (row_num - 1) 0);
        if (five_epsilon <? a - b - dt_)%float then
          emit (DumpMatrix matrix);;
          stop (NonConstantDt row_num dt_ (a - b)%float (a - b - dt_)%float)
        else load_rows pending (row_num + 1) matrix dt_
      else load_rows pending (row_num + 1) matrix dt_
  end.

Definition LoadMatrixFromCSV (fs : filesystem) (filename : string)
    (matrix : Matrix) (quiet : bool) (dt_ : double) : io (Matrix * double) :=
  (if quiet then mret tt else emit (Loading filename));;
  emit (ReadFile filename);;
  let number_of_lines := GetNumberOfLines fs filename in
  match header_fields (fs filename) with
  | None =>
      emit (ParserError filename);;
      mret (matrix, dt_)
  | Some n =>
      let i := Z.of_nat n in
      matrix ← defined (resize (number_of_lines - 1) i);
      load_rows (data_rows (fs filename)) 0 matrix dt_
  end.

(** ** The trajectory object *)

Record Trajectory := {
  trajectory_number_ : Z;
  dimension_ : Z;
  udimension_ : Z;
  filename_prefix_ : string;
  dt_ : double;
  xpoints_ : Matrix;
  upoints_ : Matrix;
  kpoints_ : Matrix;
  affine_points_ : Matrix;
  xpoints_rollout_ : Matrix
}.

(** [Trajectory::Trajectory()], lines 13-19. *)
Definition default_Trajectory : Trajectory :=
  {| trajectory_number_ := -1;
     dimension_ := 0;
     udimension_ := 0;
     filename_prefix_ := "";
     dt_ := 0%float;
     xpoints_ := empty_matrix;
     upoints_ := empty_matrix;
     kpoints_ := empty_matrix;
     affine_points_ := empty_matrix;
     xpoints_rollout_ := empty_matrix |}.

(** *** The trajectory number, lines 35-36 *)

(** [s.substr(s.length() - 5, 5)]: the position is computed in [size_t], so
    on a string shorter than 5 it wraps to a position past the end and
    [substr] throws [std::out_of_range]. *)
Definition last_five (s : string) : option string :=
  let n := String.length s in
  if (5 <=? n)%nat then Some (substring (n - 5) 5 s) else None.

Definition isspace (c : ascii) : bool :=
  let n := nat_of_ascii c in
  ((n =? 32) || ((9 <=? n) && (n <=? 13)))%nat.

Definition digit (c : ascii) : option Z :=
  let n := nat_of_ascii c in
  if ((48 <=? n) && (n <=? 57))%nat then Some (Z.of_nat (n - 48)) else None.

Fixpoint skip_spaces (s : string) : string :=
  match s with
  | String c rest => if isspace c then skip_spaces rest else s
  | EmptyString => s
  end.

(** The decimal digits at the front of [s], most significant first; [None]
    when [s] does not start with a digit. *)
Fixpoint leading_digits (s : string) (acc : option Z) : option Z :=
  match s with
  | String c rest =>
      match digit c with
      | Some d => leading_digits rest (Some (10 * default 0 acc + d))
      | None => acc
      end
  | EmptyString => acc
  end.

(** [std::stoi(s)]: white space, an optional sign, decimal digits; what
    follows the digits is ignored. *)
Definition stoi (s : string) : io Z :=
  let s := skip_spaces s in
  let '(negative, s) :=
    match s with
    | String "-" rest => (true, rest)
    | String "+" rest => (false, rest)
    | _ => (false, s)
    end in
  match leading_digits s None with
  | None => stop InvalidArgument
  | Some v =>
      let v := if negative then - v else v in
      if Double.in_int v then mret v else stop OutOfRange
  end.

(** *** Time invariance *)

(** [==] on every pair of coefficients of two rows of one length. *)
Definition row_eqb (r1 r2 : list double) : bool :=
  (length r1 =? length r2)%nat && forallb (fun p => (p.1 =? p.2)%float) (zip r1 r2).

(** The gain coefficients of a gain-table row: the row without its time. *)
Definition gains (k_row : list double) : list double := drop 1 k_row.

(** Modelled from the spec: [Trajectory::IsTimeInvariant] is declared in
    Trajectory.hpp, which is not among the sources; the specification says a
    trajectory is time-invariant if and only if every row of the gain table
    is numerically identical to every other row, the feedback gain being the
    same at every sampled timestep.  The rows are compared on their gain
    coefficients: their timestamps differ by construction, and the
    specification's scenario of a constant gain over 100 rows is
    time-invariant. *)
Definition IsTimeInvariant (this : Trajectory) : bool :=
  match coeffs (kpoints_ this) with
  | [] => true
  | first :: others => forallb (fun k_row => row_eqb (gains first) (gains k_row)) others
  end.

(** *** [Trajectory::LoadTrajectory] *)

(** Lines 30-41: the trajectory number and the four required tables, each
    load assigning [dt_] in turn. *)
Definition load_tables (fs : filesystem) (this : Trajectory)
    (filename_prefix : string) (quiet : bool) : io Trajectory :=
  (if quiet then mret tt else emit (LoadingTrajectory filename_prefix));;
  traj_number_str ← match last_five filename_prefix with
                    | Some s => mret s
                    | None => stop OutOfRange
                    end;
  trajectory_number ← stoi traj_number_str;
  '(xpoints, dt) ← LoadMatrixFromCSV fs (filename_prefix +:+ "-x.csv") (xpoints_ this) quiet (dt_ this);
  '(upoints, dt) ← LoadMatrixFromCSV fs (filename_prefix +:+ "-u.csv") (upoints_ this) quiet dt;
  '(kpoints, dt) ← LoadMatrixFromCSV fs (filename_prefix +:+ "-controller.csv") (kpoints_ this) quiet dt;
  '(affine_points, dt) ← LoadMatrixFromCSV fs (filename_prefix +:+ "-affine.csv") (affine_points_ this) quiet dt;
  mret {| trajectory_number_ := trajectory_number;
          dimension_ := dimension_ this;
          udimension_ := udimension_ this;
          filename_prefix_ := filename_prefix;
          dt_ := dt;
          xpoints_ := xpoints;
          upoints_ := upoints;
          kpoints_ := kpoints;
          affine_points_ := affine_points;
          xpoints_rollout_ := xpoints_rollout_ this |}.

(** Lines 45-66: the dimensions and the three consistency checks. *)
Definition check_tables (this : Trajectory) : io Trajectory :=
  let dimension := cols (xpoints_ this) - 1 in
  let udimension := cols (upoints_ this) - 1 in
  if negb (cols (kpoints_ this) - 1 =? dimension * udimension) then
    stop (GainColumns dimension udimension (dimension * udimension + 1) (cols (kpoints_ this)))
  else if negb (cols (affine_points_ this) - 1 =? udimension) then
    stop (AffineColumns udimension (udimension + 1) (cols (affine_points_ this)))
  else if negb (rows (xpoints_ this) =? rows (upoints_ this))
       || negb (rows (xpoints_ this) =? rows (kpoints_ this))
       || negb (rows (xpoints_ this) =? rows (affine_points_ this)) then
    stop (RowCounts (rows (xpoints_ this)) (rows (upoints_ this))
                    (rows (kpoints_ this)) (rows (affine_points_ this)))
  else
    mret {| trajectory_number_ := trajectory_number_ this;
            dimension_ := dimension;
            udimension_ := udimension;
            filename_prefix_ := filename_prefix_ this;
            dt_ := dt_ this;
            xpoints_ := xpoints_ this;
            upoints_ := upoints_ this;
            kpoints_ := kpoints_ this;
            affine_points_ := affine_points_ this;
            xpoints_rollout_ := xpoints_rollout_ this |}.

(** Lines 68-71: the precomputed rollout of a time-invariant trajectory. *)
Definition load_rollout (fs : filesystem) (this : Trajectory)
    (filename_prefix : string) (quiet : bool) : io Trajectory :=
  if IsTimeInvariant this then
    '(xpoints_rollout, dt) ← LoadMatrixFromCSV fs (filename_prefix +:+ "-rollout.csv")
                               (xpoints_rollout_ this) quiet (dt_ this);
    mret {| trajectory_number_ := trajectory_number_ this;
            dimension_ := dimension_ this;
            udimension_ := udimension_ this;
            filename_prefix_ := filename_prefix_ this;
            dt_ := dt;
            xpoints_ := xpoints_ this;
            upoints_ := upoints_ this;
            kpoints_ := kpoints_ this;
            affine_points_ := affine_points_ this;
            xpoints_rollout_ := xpoints_rollout |}
  else mret this.

Definition LoadTrajectory (fs : filesystem) (this : Trajectory)
    (filename_prefix : string) (quiet : bool) : io Trajectory :=
  this ← load_tables fs this filename_prefix quiet;
  this ← check_tables this;
  load_rollout fs this filename_prefix quiet.

(** [Trajectory::Trajectory(filename_prefix, quiet)], lines 21-23. *)
Definition new_Trajectory (fs : filesystem) (filename_prefix : string) (quiet : bool)
  : io Trajectory :=
  LoadTrajectory fs default_Trajectory filename_prefix quiet.

(** ** Queries *)

(** [int] addition; signed overflow is undefined. *)
Definition int_add (a b : Z) : option Z :=
  if Double.in_int (a + b) then Some (a + b) else None.

(** [Trajectory::GetIndexFromTime], lines 180-217. *)
Definition GetIndexFromTime (this : Trajectory) (t : double) (use_rollout : bool)
  : option Z :=
  let points := if use_rollout then xpoints_rollout_ this else xpoints_ this in
  t0 ← coeff points 0 0;
  tf ← coeff points (rows points - 1) 0;
  if (t <? t0)%float then Some 0
  else if (tf <? t)%float then Some (rows points - 1)
  else
    num_dts ← Double.to_int (t / dt_ this)%float;
    let remainder := Double.to_float (Double.fmod t (dt_ this)) in
    num_dts ← (if (0.5 * dt_ this <? remainder)%float
               then int_add num_dts 1 else Some num_dts);
    starting_dts ← Double.to_int (t0 / dt_ this)%float;
    int_add num_dts starting_dts.

(** [Trajectory::GetState], lines 147-153. *)
Definition GetState (this : Trajectory) (t : double) : option (list double) :=
  index ← GetIndexFromTime this t false;
  row_vec ← matrix_row (xpoints_ this) index;
  vector_tail row_vec (cols (xpoints_ this) - 1).

(** [Trajectory::GetUCommand], lines 155-161. *)
Definition GetUCommand (this : Trajectory) (t : double) : option (list double) :=
  index ← GetIndexFromTime this t false;
  row_vec ← matrix_row (upoints_ this) index;
  vector_tail row_vec (cols (upoints_ this) - 1).

(** [Trajectory::GetRolloutState], lines 163-169. *)
Definition GetRolloutState (this : Trajectory) (t : double) : option (list double) :=
  index ← GetIndexFromTime this t true;
  row_vec ← matrix_row (xpoints_rollout_ this) index;
  vector_tail row_vec (cols (xpoints_rollout_ this) - 1).

(** [Trajectory::GetTimeAtIndex] and [Trajectory::GetMaxTime], lines 219-227. *)
Definition GetTimeAtIndex (this : Trajectory) (index : Z) : option double :=
  coeff (xpoints_ this) index 0.

Definition GetMaxTime (this : Trajectory) : option double :=
  coeff (xpoints_ this) (rows (xpoints_ this) - 1) 0.

(** The [for] loop of [GetGainMatrix], lines 246-252, with [todo] iterations
    left: row [i] of [k_mat] receives a segment of [k_row]. *)
Fixpoint unpack_rows (todo : nat) (i : Z) (k_row : list double) (dimension : Z)
    (k_mat : list (list double)) : option (list (list double)) :=
  match todo with
  | O => Some k_mat
  | S todo =>
      let start_pos := i * dimension + 1 in
      seg ← vector_segment k_row start_pos dimension;
      _ ← k_mat !! Z.to_nat i;
      unpack_rows todo (i + 1) k_row dimension (<[Z.to_nat i := seg]> k_mat)
  end.

(** [Trajectory::GetGainMatrix], lines 238-257. *)
Definition GetGainMatrix (this : Trajectory) (t : double) : option Matrix :=
  index ← GetIndexFromTime this t false;
  k_row ← matrix_row (kpoints_ this) index;
  k_mat ← resize (udimension_ this) (dimension_ this);
  k_rows ← unpack_rows (Z.to_nat (udimension_ this)) 0 k_row (dimension_ this) (coeffs k_mat);
  Some {| cols := dimension_ this; coeffs := k_rows |}.

(** ** Drawing the trajectory *)

(** The calls made on the lcmgl drawing library, in order. *)
Inductive lcmgl_call :=
  | bot_lcmgl_line_width (width : double)
  | bot_lcmgl_begin_LINE_STRIP
  | bot_lcmgl_vertex3f (x y z : double)
  | bot_lcmgl_end.

Section Transform.

(** The frame transform of libbot, an external library: its type and the
    function that applies it to a point. *)
Variable BotTrans : Type.
Variable bot_trans_apply_vec : BotTrans -> double * double * double -> double * double * double.

(** [Trajectory::GetTransformedPoint], lines 288-303. *)
Definition GetTransformedPoint (this : Trajectory) (t : double) (transform : BotTrans)
  : option (double * double * double) :=
  state ← GetState this t;
  x ← state !! 0%nat;
  y ← state !! 1%nat;
  z ← state !! 2%nat;
  Some (bot_trans_apply_vec transform (x, y, z)).

(** The [for] loop of [PlotTransformedTrajectory], lines 309-315, with [todo]
    iterations left: the [int] counter [i] is the time passed to
    [GetTransformedPoint], and the point is narrowed to [float] for
    [bot_lcmgl_vertex3f]. *)
Fixpoint plot_vertices (this : Trajectory) (transform : BotTrans) (todo : nat) (i : Z)
  : option (list lcmgl_call) :=
  match todo with
  | O => Some []
  | S todo =>
      '(x, y, z) ← GetTransformedPoint this (Double.of_int i) transform;
      calls ← plot_vertices this transform todo (i + 1);
      Some (bot_lcmgl_vertex3f (Double.to_float x) (Double.to_float y) (Double.to_float z)
              :: calls)
  end.

(** [Trajectory::PlotTransformedTrajectory], lines 305-317; [xpoints_.size()]
    is the number of coefficients of the state table. *)
Definition PlotTransformedTrajectory (this : Trajectory) (transform : BotTrans)
  : option (list lcmgl_call) :=
  let size := rows (xpoints_ this) * cols (xpoints_ this) in
  calls ← plot_vertices this transform (Z.to_nat size) 0;
  Some ([bot_lcmgl_line_width 2%float; bot_lcmgl_begin_LINE_STRIP] ++ calls ++ [bot_lcmgl_end]).

End Transform.

(** ** Sample file systems *)

(** A table file of one-field-per-column rows under a header of [n] fields. *)
Definition table (n : nat) (body : list (list double)) : csv_file :=
  {| line_count := 1 + Z.of_nat (length body);
     header_fields := Some n;
     data_rows := body |}.

(** The files [prefix-x.csv], [prefix-u.csv], [prefix-controller.csv],
    [prefix-affine.csv] and [prefix-rollout.csv]; every other path is
    missing. *)
Definition disk (filename_prefix : string) (x u k a r : csv_file) : filesystem :=
  fun filename =>
    if String.eqb filename (filename_prefix +:+ "-x.csv") then x
    else if String.eqb filename (filename_prefix +:+ "-u.csv") then u
    else if String.eqb filename (filename_prefix +:+ "-controller.csv") then k
    else if String.eqb filename (filename_prefix +:+ "-affine.csv") then a
    else if String.eqb filename (filename_prefix +:+ "-rollout.csv") then r
    else missing_file.

(** The rows of a table: every timestamp, followed by the columns
    [column t]. *)
Definition timed (column : double -> list double) (ts : list double) : list (list double) :=
  (fun t => t :: column t) <$> ts.

(** One state, one control, a gain that follows the time; the state,
    control, gain and affine tables each on their own timestamps, and no
    rollout file. *)
Definition disk_of_tables (xs us ks affs : list double) : filesystem :=
  disk "traj-00001"
    (table 2 (timed (fun t => [1%float]) xs))
    (table 2 (timed (fun t => [2%float]) us))
    (table 2 (timed (fun t => [t]) ks))
    (table 2 (timed (fun t => [3%float]) affs))
    missing_file.

(** The same, every table on the timestamps [ts]. *)
Definition disk_of_times (ts : list double) : filesystem :=
  disk_of_tables ts ts ts ts.

(** The exact timestamps 0, 0.5, 1, ... of [n] rows. *)
Definition half_steps (n : nat) : list double :=
  (fun i => Double.of_scaled (Z.of_nat i) (-1) false) <$> seq 0 n.

(** A gain that never changes, and a rollout of three rows. *)
Definition constant_gain_disk : filesystem :=
  let ts := [0; 0.5; 1; 1.5]%float in
  disk "traj-00001"
    (table 2 (timed (fun t => [1%float]) ts))
    (table 2 (timed (fun t => [2%float]) ts))
    (table 2 (timed (fun t => [7%float]) ts))
    (table 2 (timed (fun t => [3%float]) ts))
    (table 2 (timed (fun t => [t]) [0; 1; 2]%float)).

(** Two states and two controls: a gain table of five columns. *)
Definition two_by_two_disk : filesystem :=
  disk "traj-00002"
    (table 3 [[0; 1; 2]; [0.5; 3; 4]]%float)
    (table 3 [[0; 5; 6]; [0.5; 7; 8]]%float)
    (table 5 [[0; 11; 12; 21; 22]; [0.5; 31; 32; 41; 42]]%float)
    (table 3 [[0; 9; 9]; [0.5; 9; 9]]%float)
    missing_file.

(** A single table of two rows whose timestamps go backwards. *)
Definition two_row_disk : filesystem :=
  fun filename =>
    if String.eqb filename "short.csv" then table 1 [[5]; [-3]]%float else missing_file.

(** State and control on a step of 0.5, the affine table on a step of 1. *)
Definition mixed_step_disk : filesystem :=
  disk_of_tables [0; 0.5; 1]%float [0; 0.5; 1]%float [0; 0.5; 1]%float [0; 1; 2]%float.

(** One row in every table and no rollout file. *)
Definition single_row_disk : filesystem :=
  disk "traj-00004"
    (table 2 [[0; 1]]%float) (table 2 [[0; 2]]%float)
    (table 2 [[0; 7]]%float) (table 2 [[0; 3]]%float)
    missing_file.

(** Three states and one control, under a prefix that ends in a dash and
    four digits. *)
Definition three_state_disk : filesystem :=
  disk "run-1234"
    (table 4 [[0; 1; 2; 3]; [1; 4; 5; 6]]%float)
    (table 2 [[0; 8]; [1; 9]]%float)
    (table 4 [[0; 11; 12; 13]; [1; 21; 22; 23]]%float)
    (table 2 [[0; 7]; [1; 7]]%float)
    missing_file.

(** A frame transform for the samples: a translation. *)
Definition translate (by_ : double * double * double) (p : double * double * double)
  : double * double * double :=
  let '(dx, dy, dz) := by_ in
  let '(x, y, z) := p in
  (x + dx, y + dy, z + dz)%float.

(** The trajectory a load returned, for statements about a sample load. *)
Definition loaded_of (m : io Trajectory) : Trajectory :=
  match snd m with
  | Done this => this
  | Stop _ => default_Trajectory
  end.

(** * Statements

    The vocabulary of the properties: what a quiet load is, which tables are
    consistent, the shape of a loaded table, numerical equality of rows. *)

(** The events [quiet] controls. *)
Definition informational (e : event) : bool :=
  match e with
  | LoadingTrajectory _ | Loading _ => true
  | _ => false
  end.

(** The events written whatever [quiet] is. *)
Definition essential (e : event) : bool := negb (informational e).

(** [m'] is [m] run quietly: the same result, and the log of [m] with its
    informational events taken out. *)
Definition quietly {A} (m' m : io A) : Prop :=
  snd m' = snd m /\ fst m' = List.filter essential (fst m).

(** The equalities of lines 48-66 on the four loaded tables. *)
Definition tables_consistent (this : Trajectory) : Prop :=
  let dimension := cols (xpoints_ this) - 1 in
  let udimension := cols (upoints_ this) - 1 in
  cols (kpoints_ this) = dimension * udimension + 1
  /\ cols (affine_points_ this) = udimension + 1
  /\ rows (xpoints_ this) = rows (upoints_ this)
  /\ rows (xpoints_ this) = rows (kpoints_ this)
  /\ rows (xpoints_ this) = rows (affine_points_ this).

(** The schema failures, each with the counts it reports. *)
Inductive schema_error (this : Trajectory) : failure -> Prop :=
  | gain_columns :
      let dimension := cols (xpoints_ this) - 1 in
      let udimension := cols (upoints_ this) - 1 in
      cols (kpoints_ this) <> dimension * udimension + 1 ->
      schema_error this
        (GainColumns dimension udimension (dimension * udimension + 1) (cols (kpoints_ this)))
  | affine_columns :
      let udimension := cols (upoints_ this) - 1 in
      cols (affine_points_ this) <> udimension + 1 ->
      schema_error this
        (AffineColumns udimension (udimension + 1) (cols (affine_points_ this)))
  | row_counts :
      ~ (rows (xpoints_ this) = rows (upoints_ this)
         /\ rows (xpoints_ this) = rows (kpoints_ this)
         /\ rows (xpoints_ this) = rows (affine_points_ this)) ->
      schema_error this
        (RowCounts (rows (xpoints_ this)) (rows (upoints_ this))
                   (rows (kpoints_ this)) (rows (affine_points_ this))).

(** The tables of [this'] are those of [this]. *)
Definition same_tables (this this' : Trajectory) : Prop :=
  xpoints_ this' = xpoints_ this /\ upoints_ this' = upoints_ this
  /\ kpoints_ this' = kpoints_ this /\ affine_points_ this' = affine_points_ this.

(** Every row holds [cols] coefficients. *)
Definition well_shaped (m : Matrix) : Prop :=
  0 <= cols m /\ Forall (fun r => Z.of_nat (length r) = cols m) (coeffs m).




(** The value a double is compared by: both zeros are the same number. *)
Definition number (x : spec_float) : spec_float :=
  match x with
  | S754_zero _ => S754_zero false
  | _ => x
  end.



(** A table of a freshly constructed trajectory is empty or has the shape of
    its file's header. *)
Definition as_loaded (fs : filesystem) (filename : string) (m : Matrix) : Prop :=
  m = empty_matrix
  \/ exists n, header_fields (fs filename) = Some n /\ well_shaped m /\ cols m = Z.of_nat n.

(** Columns [i * dimension + 1 .. i * dimension + dimension] of a gain row. *)
Definition gain_segment (k_row : list double) (dimension : Z) (i : nat) : list double :=
  take (Z.to_nat dimension) (drop (Z.to_nat (Z.of_nat i * dimension + 1)) k_row).




(** The timestamp of a row: its first field. *)
Definition time_of (rowFields : list double) : double :=
  default 0%float (head rowFields).

(** [r] rows of [n] coefficients not yet assigned. *)
Definition blank (n : nat) (r : nat) : list (list double) :=
  replicate r (replicate n 0%float).

(** The spacing check as a scan of the timestamps after the second: the
    first row, counted from [row_num], whose timestamp exceeds the one before
    it by more than [dt_] and five epsilons, with that difference. *)
Fixpoint first_gap (prev dt_ : double) (row_num : Z) (times : list double)
  : option (Z * double) :=
  match times with
  | [] => None
  | t :: times =>
      if (five_epsilon <? t - prev - dt_)%float then Some (row_num, (t - prev)%float)
      else first_gap t dt_ (row_num + 1) times
  end.

(** The end of a load whose spacing scan found [gap]. *)
Definition checked (dt_ : double) (gap : option (Z * double)) (m : Matrix)
  : outcome (Matrix * double) :=
  match gap with
  | Some (row_num, diff) => Stop (NonConstantDt row_num dt_ diff (diff - dt_)%float)
  | None => Done (m, dt_)
  end.

(** What loading a table of rows [body] under a header of [n] fields comes
    to: the step is the difference of the first two timestamps, the scan
    starts at row 2, and a table that passes holds the rows of the file. *)
Definition spaced_load (n : nat) (body : list (list double)) (dt_ : double)
  : outcome (Matrix * double) :=
  let m := {| cols := Z.of_nat n; coeffs := body |} in
  match body with
  | r0 :: r1 :: rest =>
      let dt := (time_of r1 - time_of r0)%float in
      checked dt (first_gap (time_of r1) dt 2 (time_of <$> rest)) m
  | _ => Done (m, dt_)
  end.

(** A file of one record per line, every row as wide as its header of [n]
    fields, [n] at least one. *)
Definition regular (n : nat) (f : csv_file) : Prop :=
  header_fields f = Some n
  /\ (1 <= n)%nat
  /\ line_count f = 1 + Z.of_nat (length (data_rows f))
  /\ Forall (fun r => length r = n) (data_rows f).

(** ** Files, steps, numbers and failures *)

(** The step a table assigns to [dt_]: the difference of its first two
    timestamps, and the step it found when it has fewer than two rows. *)
Definition step_of (body : list (list double)) (dt_ : double) : double :=
  match body with
  | r0 :: r1 :: _ => (time_of r1 - time_of r0)%float
  | _ => dt_
  end.

(** No row of index 2 or more is later than the step allows. *)
Definition no_gap (body : list (list double)) : Prop :=
  match body with
  | r0 :: r1 :: rest =>
      first_gap (time_of r1) (time_of r1 - time_of r0)%float 2 (time_of <$> rest) = None
  | _ => True
  end.

(** The table of a regular file. *)
Definition table_of (f : csv_file) (n : nat) : Matrix :=
  {| cols := Z.of_nat n; coeffs := data_rows f |}.

(** A table that holds the rows of its file, whenever the file is regular. *)
Definition holds_file (fs : filesystem) (filename : string) (m : Matrix) : Prop :=
  forall n, regular n (fs filename) -> m = table_of (fs filename) n.

(** A file the parser rejects, or a regular one. *)
Definition readable (f : csv_file) : Prop :=
  header_fields f = None \/ exists n, regular n f.

(** The step after a file is loaded: a rejected file leaves it alone. *)
Definition file_step (f : csv_file) (dt_ : double) : double :=
  match header_fields f with
  | None => dt_
  | Some _ => step_of (data_rows f) dt_
  end.

(** A data set that loads: a prefix that ends in a number, four regular
    tables without gap whose column and row counts agree, and a rollout file
    that is missing or regular without gap. *)
Record loadable (fs : filesystem) (filename_prefix : string)
    (number : Z) (nx nu : nat) : Prop := {
  loadable_number :
    exists str, last_five filename_prefix = Some str /\ snd (stoi str) = Done number;
  loadable_x : regular nx (fs (filename_prefix +:+ "-x.csv"));
  loadable_u : regular nu (fs (filename_prefix +:+ "-u.csv"));
  loadable_k :
    regular (S ((nx - 1) * (nu - 1))) (fs (filename_prefix +:+ "-controller.csv"));
  loadable_a : regular nu (fs (filename_prefix +:+ "-affine.csv"));
  loadable_rows :
    let height suffix := length (data_rows (fs (filename_prefix +:+ suffix))) in
    height "-x.csv" = height "-u.csv"
    /\ height "-x.csv" = height "-controller.csv"
    /\ height "-x.csv" = height "-affine.csv";
  loadable_spacing :
    forall suffix,
      suffix ∈ ["-x.csv"; "-u.csv"; "-controller.csv"; "-affine.csv"; "-rollout.csv"] ->
      no_gap (data_rows (fs (filename_prefix +:+ suffix)));
  loadable_rollout :
    header_fields (fs (filename_prefix +:+ "-rollout.csv")) = None
    \/ exists nr, regular nr (fs (filename_prefix +:+ "-rollout.csv"))
}.

(** The character of a decimal digit. *)
Definition digit_char (d : nat) : ascii := ascii_of_nat (48 + d).

(** The string of the digits [ds], most significant first. *)
Definition digits_string (ds : list nat) : string :=
  foldr (fun d s => String (digit_char d) s) EmptyString ds.

(** The number the digits [ds] write after [acc]. *)
Definition decimal (acc : Z) (ds : list nat) : Z :=
  foldl (fun acc d => 10 * acc + Z.of_nat d) acc ds.

(** The failures of the trajectory number: the exceptions of [substr] and
    [stoi]. *)
Definition number_failure (f : failure) : Prop :=
  f = OutOfRange \/ f = InvalidArgument.

(** The failures that loading a table can end in. *)
Definition table_failure (f : failure) : Prop :=
  match f with
  | Undefined | NonConstantDt _ _ _ _ => True
  | _ => False
  end.

(** * Properties *)

(** ** The [io] monad *)

Section Io.
Context {A B : Type}.
Implicit Types (m : io A) (k : A -> io B).

Lemma bind_done m k l b :
  m ≫= k = (l, Done b) ->
  exists l1 a l2, m = (l1, Done a) /\ k a = (l2, Done b) /\ l = l1 ++ l2.
Proof.
  destruct m as [l1 [a | f]]; cbn; [ | discriminate ].
  destruct (k a) as [l2 r] eqn:Hk. intros [= <- ->]. eauto 6.
Qed.

Lemma bind_snd_done m k l a :
  m = (l, Done a) -> snd (m ≫= k) = snd (k a).
Proof. intros ->. cbn. now destruct (k a). Qed.

Lemma bind_snd_stop m k l f :
  m = (l, Stop f) -> snd (m ≫= k) = Stop f.
Proof. now intros ->. Qed.

Lemma bind_stop m k l f :
  m ≫= k = (l, Stop f) ->
  m = (l, Stop f) \/
  exists l1 a l2, m = (l1, Done a) /\ k a = (l2, Stop f) /\ l = l1 ++ l2.
Proof.
  destruct m as [l1 [a | f']]; cbn.
  - destruct (k a) as [l2 r] eqn:Hk. intros [= <- ->]. right. eauto 6.
  - intros [= <- <-]. now left.
Qed.
End Io.

Lemma defined_done {A} (o : option A) l a : defined o = (l, Done a) -> o = Some a /\ l = [].
Proof. destruct o; cbn; [ intros [= <- <-] | discriminate ]; auto. Qed.

Lemma defined_stop {A} (o : option A) l f : defined o = (l, Stop f) -> f = Undefined.
Proof. destruct o; cbn; [ discriminate | now intros [= <- <-] ]. Qed.

Lemma stoi_silent (s : string) : fst (stoi s) = [].
Proof.
  unfold stoi. destruct (skip_spaces s) as [ | c rest]; cbn.
  - reflexivity.
  - destruct (match c with "-"%char => _ | _ => _ end) as [negative digits].
    destruct (leading_digits digits None); [ | reflexivity ].
    now destruct (Double.in_int _).
Qed.

(** ** Logging and [quiet] *)

Lemma quietly_bind {A B} (m' m : io A) (k' k : A -> io B) :
  quietly m' m -> (forall a, quietly (k' a) (k a)) -> quietly (m' ≫= k') (m ≫= k).
Proof.
  destruct m' as [l' r'], m as [l r]. intros [Hr Hl] Hk. cbn [fst snd] in Hr, Hl. subst r' l'.
  destruct r as [a | f]; unfold mbind, io_bind; [ | now split ].
  destruct (Hk a) as [Hs Hf]. destruct (k' a) as [l1' r1'], (k a) as [l1 r1].
  unfold quietly. cbn [fst snd] in *. subst. split; [ reflexivity | ]. now rewrite List.filter_app.
Qed.

Lemma quietly_same {A} (m : io A) :
  Forall (fun e => essential e = true) (fst m) -> quietly m m.
Proof.
  intros H. split; [ reflexivity | ]. symmetry.
  apply List.forallb_filter_id, List.forallb_forall, List.Forall_forall, H.
Qed.

Lemma defined_essential {A} (o : option A) :
  Forall (fun e => essential e = true) (fst (defined o)).
Proof. destruct o; constructor. Qed.

Lemma bind_essential {A B} (m : io A) (k : A -> io B) :
  Forall (fun e => essential e = true) (fst m) ->
  (forall a, Forall (fun e => essential e = true) (fst (k a))) ->
  Forall (fun e => essential e = true) (fst (m ≫= k)).
Proof.
  destruct m as [l [a | f]]; cbn; intros Hl Hk; [ | exact Hl ].
  specialize (Hk a). destruct (k a) as [l' r]. cbn in *.
  apply Forall_app; auto.
Qed.

Lemma load_rows_essential pending : forall row_num matrix dt_,
  Forall (fun e => essential e = true) (fst (load_rows pending row_num matrix dt_)).
Proof.
  induction pending as [ | rowFields pending IH]; intros row_num matrix dt_; cbn [load_rows].
  - constructor.
  - apply bind_essential; [ apply defined_essential | intros m ].
    destruct (row_num =? 1).
    { apply bind_essential; [ apply defined_essential | intros a ].
      apply bind_essential; [ apply defined_essential | intros b ]. apply IH. }
    destruct (1 <? row_num); [ | apply IH ].
    apply bind_essential; [ apply defined_essential | intros a ].
    apply bind_essential; [ apply defined_essential | intros b ].
    destruct (five_epsilon <? a - b - dt_)%float; [ | apply IH ].
    repeat constructor.
Qed.

Lemma LoadMatrixFromCSV_quietly fs filename matrix dt_ :
  quietly (LoadMatrixFromCSV fs filename matrix true dt_)
          (LoadMatrixFromCSV fs filename matrix false dt_).
Proof.
  unfold LoadMatrixFromCSV.
  apply quietly_bind; [ now split | intros _ ].
  apply quietly_same.
  apply bind_essential; [ repeat constructor | intros _ ].
  destruct (header_fields (fs filename)).
  - apply bind_essential; [ apply defined_essential | intros m ]. apply load_rows_essential.
  - repeat constructor.
Qed.

Lemma load_tables_quietly fs this filename_prefix :
  quietly (load_tables fs this filename_prefix true) (load_tables fs this filename_prefix false).
Proof.
  unfold load_tables.
  apply quietly_bind; [ now split | intros _ ].
  apply quietly_bind.
  { apply quietly_same. destruct (last_five filename_prefix); constructor. }
  intros str. apply quietly_bind.
  { apply quietly_same. rewrite stoi_silent. constructor. }
  intros n.
  apply quietly_bind; [ apply LoadMatrixFromCSV_quietly | intros [x dt1] ].
  apply quietly_bind; [ apply LoadMatrixFromCSV_quietly | intros [u dt2] ].
  apply quietly_bind; [ apply LoadMatrixFromCSV_quietly | intros [k dt3] ].
  apply quietly_bind; [ apply LoadMatrixFromCSV_quietly | intros [a dt4] ].
  now split.
Qed.

Lemma check_tables_essential this :
  Forall (fun e => essential e = true) (fst (check_tables this)).
Proof.
  unfold check_tables.
  repeat match goal with |- context [if ?c then _ else _] => destruct c end; constructor.
Qed.

Lemma load_rollout_quietly fs this filename_prefix :
  quietly (load_rollout fs this filename_prefix true) (load_rollout fs this filename_prefix false).
Proof.
  unfold load_rollout. destruct (IsTimeInvariant this); [ | now split ].
  apply quietly_bind; [ apply LoadMatrixFromCSV_quietly | intros [r dt] ]. now split.
Qed.

(** C9: for every file system, object and filename prefix, the quiet load and
    the verbose load end in the same result (the same trajectory, or the same
    failure), and the quiet log is the verbose log without its informational
    lines: [quiet] changes the logging only. *)
Theorem LoadTrajectory_quiet_only_logging (fs : filesystem) (this : Trajectory)
    (filename_prefix : string) :
  snd (LoadTrajectory fs this filename_prefix true)
    = snd (LoadTrajectory fs this filename_prefix false)
  /\ fst (LoadTrajectory fs this filename_prefix true)
    = List.filter essential (fst (LoadTrajectory fs this filename_prefix false)).
Proof.
  unfold LoadTrajectory.
  apply quietly_bind; [ apply load_tables_quietly | intros t1 ].
  apply quietly_bind; [ apply quietly_same, check_tables_essential | intros t2 ].
  apply load_rollout_quietly.
Qed.

(** ** Which rows the spacing check looks at *)

(** One step of inversion on a computation known to stop with a failure
    other than undefined behaviour. *)
Ltac step_stop H :=
  let Hm := fresh "Hm" in
  apply bind_stop in H as [Hm | (? & ? & ? & Hm & H & ?)];
  [ solve [ apply defined_stop in Hm; discriminate Hm ] | ].

Lemma load_rows_spacing_row pending : forall row_num matrix dt_ l r d x y,
  load_rows pending row_num matrix dt_ = (l, Stop (NonConstantDt r d x y)) ->
  2 <= r /\ row_num <= r < row_num + Z.of_nat (length pending).
Proof.
  induction pending as [ | rowFields pending IH]; intros row_num matrix dt_ l r d x y H;
    cbn [load_rows] in H; [ discriminate | ].
  cbn [length]. step_stop H.
  destruct (Z.eqb_spec row_num 1) as [-> | Hne].
  { do 2 step_stop H. apply IH in H. lia. }
  destruct (Z.ltb_spec 1 row_num) as [Hgt | Hle]; [ | apply IH in H; lia ].
  do 2 step_stop H.
  destruct (five_epsilon <? _ - _ - dt_)%float; [ | apply IH in H; lia ].
  cbn in H. injection H as _ <- _ _ _. lia.
Qed.

Lemma LoadMatrixFromCSV_spacing_row fs filename matrix quiet dt_ r d x y :
  snd (LoadMatrixFromCSV fs filename matrix quiet dt_) = Stop (NonConstantDt r d x y) ->
  2 <= r < Z.of_nat (length (data_rows (fs filename))).
Proof.
  destruct (LoadMatrixFromCSV _ _ _ _ _) as [l o] eqn:H. cbn [snd]. intros ->.
  unfold LoadMatrixFromCSV in H.
  apply bind_stop in H as [Hm | (? & ? & ? & Hm & H & ?)]; [ now destruct quiet | ].
  apply bind_stop in H as [Hm' | (? & ? & ? & Hm' & H & ?)]; [ discriminate | ].
  destruct (header_fields (fs filename)); [ | discriminate ].
  step_stop H. apply load_rows_spacing_row in H. lia.
Qed.

(** C10: a spacing failure always names a row of index 2 or more, so a table
    of at most two data rows never fails the spacing check, whatever its
    timestamps are. *)
Theorem LoadMatrixFromCSV_two_rows_no_spacing_error (fs : filesystem) (filename : string)
    (matrix : Matrix) (quiet : bool) (dt_ : double) :
  (forall r d x y,
     snd (LoadMatrixFromCSV fs filename matrix quiet dt_) = Stop (NonConstantDt r d x y) ->
     2 <= r)
  /\ ((length (data_rows (fs filename)) <= 2)%nat ->
      forall r d x y,
        snd (LoadMatrixFromCSV fs filename matrix quiet dt_) <> Stop (NonConstantDt r d x y)).
Proof.
  split.
  - intros r d x y H. apply LoadMatrixFromCSV_spacing_row in H. lia.
  - intros Hlen r d x y H. apply LoadMatrixFromCSV_spacing_row in H. lia.
Qed.

(** ** Cross-table validation *)

Lemma check_tables_done this l this' :
  check_tables this = (l, Done this') ->
  tables_consistent this /\ same_tables this this'
  /\ dimension_ this' = cols (xpoints_ this) - 1
  /\ udimension_ this' = cols (upoints_ this) - 1
  /\ xpoints_rollout_ this' = xpoints_rollout_ this.
Proof.
  unfold check_tables, tables_consistent, same_tables.
  destruct (Z.eqb_spec (cols (kpoints_ this) - 1)
              ((cols (xpoints_ this) - 1) * (cols (upoints_ this) - 1))); [ | discriminate ].
  destruct (Z.eqb_spec (cols (affine_points_ this) - 1) (cols (upoints_ this) - 1));
    [ | discriminate ].
  destruct (Z.eqb_spec (rows (xpoints_ this)) (rows (upoints_ this))); [ | discriminate ].
  destruct (Z.eqb_spec (rows (xpoints_ this)) (rows (kpoints_ this))); [ | discriminate ].
  destruct (Z.eqb_spec (rows (xpoints_ this)) (rows (affine_points_ this))); [ | discriminate ].
  cbn. intros [= <- <-]. cbn. repeat split; auto; lia.
Qed.

Lemma check_tables_inconsistent this :
  ~ tables_consistent this ->
  exists f, check_tables this = ([], Stop f) /\ schema_error this f.
Proof.
  unfold check_tables, tables_consistent. intros Hbad.
  destruct (Z.eqb_spec (cols (kpoints_ this) - 1)
              ((cols (xpoints_ this) - 1) * (cols (upoints_ this) - 1))) as [Hk | Hk]; cbn.
  2: { eexists. split; [ reflexivity | ]. apply gain_columns. lia. }
  destruct (Z.eqb_spec (cols (affine_points_ this) - 1) (cols (upoints_ this) - 1))
    as [Ha | Ha]; cbn.
  2: { eexists. split; [ reflexivity | ]. apply affine_columns. lia. }
  destruct (Z.eqb_spec (rows (xpoints_ this)) (rows (upoints_ this))) as [Hu | Hu]; cbn.
  2: { eexists. split; [ reflexivity | ]. apply row_counts. tauto. }
  destruct (Z.eqb_spec (rows (xpoints_ this)) (rows (kpoints_ this))) as [Hr | Hr]; cbn.
  2: { eexists. split; [ reflexivity | ]. apply row_counts. tauto. }
  destruct (Z.eqb_spec (rows (xpoints_ this)) (rows (affine_points_ this))) as [Hf | Hf]; cbn.
  2: { eexists. split; [ reflexivity | ]. apply row_counts. tauto. }
  exfalso. apply Hbad. repeat split; auto; lia.
Qed.

Lemma load_rollout_done fs this filename_prefix quiet l this' :
  load_rollout fs this filename_prefix quiet = (l, Done this') ->
  same_tables this this'
  /\ dimension_ this' = dimension_ this /\ udimension_ this' = udimension_ this.
Proof.
  unfold load_rollout, same_tables. destruct (IsTimeInvariant this).
  - intros H. apply bind_done in H as (l1 & [r dt] & l2 & _ & H & _).
    injection H as _ <-. cbn. auto 10.
  - intros [= _ <-]. auto 10.
Qed.

Lemma LoadTrajectory_done fs this filename_prefix quiet log loaded :
  LoadTrajectory fs this filename_prefix quiet = (log, Done loaded) ->
  dimension_ loaded = cols (xpoints_ loaded) - 1
  /\ udimension_ loaded = cols (upoints_ loaded) - 1
  /\ cols (kpoints_ loaded) = dimension_ loaded * udimension_ loaded + 1
  /\ cols (affine_points_ loaded) = udimension_ loaded + 1
  /\ rows (xpoints_ loaded) = rows (upoints_ loaded)
  /\ rows (xpoints_ loaded) = rows (kpoints_ loaded)
  /\ rows (xpoints_ loaded) = rows (affine_points_ loaded).
Proof.
  intros H. unfold LoadTrajectory in H.
  apply bind_done in H as (l1 & t1 & l2 & _ & H & _).
  apply bind_done in H as (l3 & t2 & l4 & Hc & H & _).
  apply check_tables_done in Hc as (Hcons & Hsame & Hd & Hu & _).
  apply load_rollout_done in H as (Hsame' & Hd' & Hu').
  destruct Hsame as (Ex & Eu & Ek & Ea), Hsame' as (Ex' & Eu' & Ek' & Ea').
  unfold tables_consistent in Hcons.
  rewrite Hd', Hu', Hd, Hu, Ex', Eu', Ek', Ea', Ex, Eu, Ek, Ea. tauto.
Qed.

(** C5: a load that returns has a gain table of [dimension_ * udimension_ + 1]
    columns, an affine table of [udimension_ + 1] columns and four tables of
    equal row counts, the dimensions being the column counts of the state and
    the control table less one; and once the four tables are read, any
    mismatch among these ends the load with a schema failure that reports
    the expected and the found counts. *)
Theorem LoadTrajectory_schema (fs : filesystem) (this : Trajectory)
    (filename_prefix : string) (quiet : bool) :
  (forall log loaded,
     LoadTrajectory fs this filename_prefix quiet = (log, Done loaded) ->
     dimension_ loaded = cols (xpoints_ loaded) - 1
     /\ udimension_ loaded = cols (upoints_ loaded) - 1
     /\ cols (kpoints_ loaded) = dimension_ loaded * udimension_ loaded + 1
     /\ cols (affine_points_ loaded) = udimension_ loaded + 1
     /\ rows (xpoints_ loaded) = rows (upoints_ loaded)
     /\ rows (xpoints_ loaded) = rows (kpoints_ loaded)
     /\ rows (xpoints_ loaded) = rows (affine_points_ loaded))
  /\ (forall log read,
        load_tables fs this filename_prefix quiet = (log, Done read) ->
        ~ tables_consistent read ->
        exists f, snd (LoadTrajectory fs this filename_prefix quiet) = Stop f
                  /\ schema_error read f).
Proof.
  split.
  - intros log loaded H. exact (LoadTrajectory_done _ _ _ _ _ _ H).
  - intros log read Hread Hbad.
    destruct (check_tables_inconsistent read Hbad) as (f & Hc & Hf).
    exists f. split; [ | exact Hf ].
    unfold LoadTrajectory. rewrite (bind_snd_done _ _ _ _ Hread).
    now rewrite (bind_snd_stop _ _ _ _ Hc).
Qed.

(** ** The shape of loaded tables *)

Lemma empty_matrix_shaped : well_shaped empty_matrix.
Proof. split; [ reflexivity | constructor ]. Qed.

Lemma resize_shape r c m :
  resize r c = Some m -> well_shaped m /\ rows m = r /\ cols m = c.
Proof.
  unfold resize, well_shaped, rows.
  destruct (Z.leb_spec 0 r), (Z.leb_spec 0 c); cbn; try discriminate.
  intros [= <-]. cbn. rewrite length_replicate. repeat split; try lia.
  apply Forall_replicate. rewrite length_replicate. lia.
Qed.

Lemma set_coeff_shape m r c v m' :
  set_coeff m r c v = Some m' ->
  well_shaped m -> well_shaped m' /\ rows m' = rows m /\ cols m' = cols m.
Proof.
  unfold set_coeff, well_shaped, rows.
  destruct ((0 <=? r) && (0 <=? c)); [ | discriminate ].
  destruct (coeffs m !! Z.to_nat r) as [old | ] eqn:Hrow; [ | discriminate ]. cbn.
  destruct (old !! Z.to_nat c); [ | discriminate ]. cbn.
  intros [= <-] [Hc Hall]. cbn. rewrite length_insert. repeat split; auto.
  apply Forall_insert; [ exact Hall | ]. rewrite length_insert.
  exact (proj1 (Forall_lookup _ _) Hall _ _ Hrow).
Qed.

Lemma store_fields_shape rowFields : forall m row_num i m',
  store_fields m row_num i rowFields = Some m' ->
  well_shaped m -> well_shaped m' /\ rows m' = rows m /\ cols m' = cols m.
Proof.
  induction rowFields as [ | v rest IH]; intros m row_num i m'; cbn [store_fields].
  - intros [= <-]. auto.
  - destruct (set_coeff m row_num i v) as [m1 | ] eqn:Hset; [ | discriminate ]. cbn.
    intros H Hm. destruct (set_coeff_shape _ _ _ _ _ Hset Hm) as (Hm1 & Hr & Hc).
    destruct (IH _ _ _ _ H Hm1) as (? & ? & ?). split; [ assumption | split; congruence ].
Qed.

(** One step of inversion on a computation known to return: the value [a]
    of the first action and the fact [Ha] about it. *)
Tactic Notation "step_done" hyp(H) "as" ident(a) ident(Ha) :=
  apply bind_done in H as (? & a & ? & Ha & H & ?);
  try (apply defined_done in Ha as [Ha ?]).

Lemma load_rows_shape pending : forall row_num m dt_ l m' dt',
  load_rows pending row_num m dt_ = (l, Done (m', dt')) ->
  well_shaped m -> well_shaped m' /\ rows m' = rows m /\ cols m' = cols m.
Proof.
  induction pending as [ | rowFields pending IH]; intros row_num m dt_ l m' dt' H Hm;
    cbn [load_rows] in H.
  - injection H as _ <- _. auto.
  - step_done H as m1 Hstore.
    destruct (store_fields_shape _ _ _ _ _ Hstore Hm) as (Hm1 & Hr & Hc).
    assert (forall n d l', load_rows pending n m1 d = (l', Done (m', dt')) ->
              well_shaped m' /\ rows m' = rows m /\ cols m' = cols m) as Hnext.
    { intros n d l' H'. destruct (IH _ _ _ _ _ _ H' Hm1) as (? & ? & ?).
      split; [ assumption | split; congruence ]. }
    destruct (row_num =? 1); [ step_done H as a Ha; step_done H as b Hb; eauto | ].
    destruct (1 <? row_num); [ | eauto ].
    step_done H as a Ha. step_done H as b Hb.
    destruct (five_epsilon <? _ - _ - dt_)%float; [ discriminate | eauto ].
Qed.

(** A table as [LoadMatrixFromCSV] leaves it: either untouched because the
    header could not be read, or resized to the header and filled. *)
Lemma LoadMatrixFromCSV_done fs filename m quiet dt_ l m' dt' :
  LoadMatrixFromCSV fs filename m quiet dt_ = (l, Done (m', dt')) ->
  (header_fields (fs filename) = None /\ m' = m /\ dt' = dt_)
  \/ (exists n, header_fields (fs filename) = Some n
        /\ well_shaped m' /\ cols m' = Z.of_nat n
        /\ rows m' = line_count (fs filename) - 1).
Proof.
  unfold LoadMatrixFromCSV, GetNumberOfLines. intros H.
  step_done H as u1 Hu1. step_done H as u2 Hu2.
  destruct (header_fields (fs filename)) as [n | ].
  - right. exists n. step_done H as m0 Hresize.
    destruct (resize_shape _ _ _ Hresize) as (Hs & Hr & Hc).
    destruct (load_rows_shape _ _ _ _ _ _ _ H Hs) as (? & ? & ?).
    split; [ reflexivity | ]. split; [ assumption | ]. split; congruence.
  - left. cbn in H. injection H as _ <- <-. auto.
Qed.

(** ** Loading a regular table *)

Lemma bind_ret {A B} (a : A) (k : A -> io B) : (mret a ≫= k) = k a.
Proof. unfold mret, io_ret, mbind, io_bind. now destruct (k a). Qed.

Lemma insert_middle {A} (l1 l2 : list A) (x y : A) :
  <[length l1 := x]> (l1 ++ y :: l2) = l1 ++ x :: l2.
Proof. now rewrite <- (Nat.add_0_r (length l1)), insert_app_r. Qed.

Lemma store_fields_from c done rest fs : forall pre old,
  length old = length fs ->
  store_fields {| cols := c; coeffs := done ++ (pre ++ old) :: rest |}
    (Z.of_nat (length done)) (Z.of_nat (length pre)) fs
  = Some {| cols := c; coeffs := done ++ (pre ++ fs) :: rest |}.
Proof.
  induction fs as [ | v fs IH]; intros pre old Hlen; cbn [store_fields].
  - destruct old; [ reflexivity | discriminate ].
  - destruct old as [ | o old]; [ discriminate | ]. injection Hlen as Hlen.
    unfold set_coeff.
    destruct (Z.leb_spec 0 (Z.of_nat (length done))), (Z.leb_spec 0 (Z.of_nat (length pre)));
      try lia. cbn [andb coeffs cols]. rewrite !Nat2Z.id.
    rewrite (list_lookup_middle done rest (pre ++ o :: old) (length done) eq_refl). cbn.
    rewrite (list_lookup_middle pre old o (length pre) eq_refl). cbn.
    rewrite !insert_middle.
    replace (Z.of_nat (length pre) + 1) with (Z.of_nat (length (pre ++ [v])))
      by (rewrite length_app; cbn; lia).
    rewrite (cons_middle v pre old), (cons_middle v pre fs), !app_assoc.
    apply IH. exact Hlen.
Qed.

Lemma store_fields_fill n done cur rest :
  length cur = n ->
  store_fields {| cols := Z.of_nat n; coeffs := done ++ replicate n 0%float :: rest |}
    (Z.of_nat (length done)) 0 cur
  = Some {| cols := Z.of_nat n; coeffs := done ++ cur :: rest |}.
Proof.
  intros Hlen.
  apply (store_fields_from (Z.of_nat n) done rest cur [] (replicate n 0%float)).
  now rewrite length_replicate.
Qed.

Lemma coeff_time c done cur rest :
  (1 <= length cur)%nat ->
  coeff {| cols := c; coeffs := done ++ cur :: rest |} (Z.of_nat (length done)) 0
  = Some (time_of cur).
Proof.
  intros Hlen. unfold coeff.
  destruct (Z.leb_spec 0 (Z.of_nat (length done))); [ | lia ]. cbn [andb Z.leb coeffs].
  rewrite Nat2Z.id, (list_lookup_middle done rest cur (length done) eq_refl). cbn.
  destruct cur; [ cbn in Hlen; lia | reflexivity ].
Qed.

Lemma coeff_time_last c done prev rest :
  (1 <= length prev)%nat ->
  coeff {| cols := c; coeffs := (done ++ [prev]) ++ rest |} (Z.of_nat (length (done ++ [prev])) - 1) 0
  = Some (time_of prev).
Proof.
  intros Hlen. rewrite <- app_assoc. cbn [app].
  replace (Z.of_nat (length (done ++ [prev])) - 1) with (Z.of_nat (length done))
    by (rewrite length_app; cbn; lia).
  now apply coeff_time.
Qed.

(** One turn of the loop on a row of index 2 or more. *)
Lemma load_rows_check n done prev cur pending dt_ :
  (1 <= n)%nat -> (1 <= length done)%nat ->
  length prev = n -> length cur = n ->
  let row_num := Z.of_nat (length (done ++ [prev])) in
  let filled := {| cols := Z.of_nat n;
                   coeffs := ((done ++ [prev]) ++ [cur]) ++ blank n (length pending) |} in
  load_rows (cur :: pending) row_num
    {| cols := Z.of_nat n; coeffs := (done ++ [prev]) ++ blank n (S (length pending)) |} dt_
  = if (five_epsilon <? time_of cur - time_of prev - dt_)%float
    then ([DumpMatrix filled],
          Stop (NonConstantDt row_num dt_ (time_of cur - time_of prev)
                  (time_of cur - time_of prev - dt_))%float)
    else load_rows pending (row_num + 1) filled dt_.
Proof.
  intros Hn Hdone Hprev Hcur row_num filled. cbn [load_rows]. unfold blank at 1.
  rewrite replicate_S. fold (blank n (length pending)). unfold row_num.
  rewrite (store_fields_fill n (done ++ [prev]) cur _ Hcur). cbn [defined]. rewrite bind_ret.
  assert ((Z.of_nat (length (done ++ [prev])) =? 1) = false) as ->
    by (apply Z.eqb_neq; rewrite length_app; cbn; lia).
  assert ((1 <? Z.of_nat (length (done ++ [prev]))) = true) as ->
    by (apply Z.ltb_lt; rewrite length_app; cbn; lia).
  rewrite coeff_time by lia. cbn [defined]. rewrite bind_ret.
  rewrite (cons_middle cur), app_assoc.
  rewrite <- (app_assoc (done ++ [prev]) [cur]).
  rewrite (coeff_time_last _ done prev) by lia. cbn [defined]. rewrite bind_ret.
  rewrite app_assoc.
  destruct (five_epsilon <? _)%float; reflexivity.
Qed.

Lemma load_rows_checked n pending : forall done prev dt_,
  (1 <= n)%nat -> (1 <= length done)%nat -> length prev = n ->
  Forall (fun r => length r = n) pending ->
  snd (load_rows pending (Z.of_nat (length (done ++ [prev])))
         {| cols := Z.of_nat n;
            coeffs := (done ++ [prev]) ++ blank n (length pending) |} dt_)
  = checked dt_
      (first_gap (time_of prev) dt_ (Z.of_nat (length (done ++ [prev]))) (time_of <$> pending))
      {| cols := Z.of_nat n; coeffs := (done ++ [prev]) ++ pending |}.
Proof.
  induction pending as [ | cur pending IH]; intros done prev dt_ Hn Hdone Hprev Hall.
  - reflexivity.
  - apply Forall_cons in Hall as [Hcur Hall]. cbn [length].
    rewrite (load_rows_check n done prev cur pending dt_ Hn Hdone Hprev Hcur).
    cbn [fmap list_fmap first_gap].
    destruct (five_epsilon <? _)%float; [ reflexivity | ].
    replace (Z.of_nat (length (done ++ [prev])) + 1)
      with (Z.of_nat (length ((done ++ [prev]) ++ [cur])))
      by (rewrite (length_app _ [cur]); cbn; lia).
    rewrite (IH (done ++ [prev]) cur dt_ Hn) by (rewrite ?length_app; cbn; auto; lia).
    now rewrite <- (app_assoc _ [cur] pending).
Qed.

(** The load of a regular file, as the scan of its timestamps. *)
Lemma LoadMatrixFromCSV_spaced fs filename matrix quiet dt_ n :
  regular n (fs filename) ->
  snd (LoadMatrixFromCSV fs filename matrix quiet dt_)
  = spaced_load n (data_rows (fs filename)) dt_.
Proof.
  intros (Hh & Hn & Hlines & Hall). unfold LoadMatrixFromCSV, GetNumberOfLines.
  rewrite (bind_snd_done _ _ (if quiet then [] else [Loading filename]) tt)
    by now destruct quiet.
  rewrite (bind_snd_done _ _ [ReadFile filename] tt) by reflexivity.
  rewrite Hh, Hlines. unfold resize.
  destruct (Z.leb_spec 0 (1 + Z.of_nat (length (data_rows (fs filename))) - 1)); [ | lia ].
  destruct (Z.leb_spec 0 (Z.of_nat n)); [ | lia ]. cbn [andb defined]. rewrite bind_ret.
  replace (Z.to_nat (1 + Z.of_nat (length (data_rows (fs filename))) - 1))
    with (length (data_rows (fs filename))) by lia.
  rewrite Nat2Z.id. fold (blank n (length (data_rows (fs filename)))).
  destruct (data_rows (fs filename)) as [ | r0 [ | r1 rest]].
  - reflexivity.
  - apply Forall_cons in Hall as [Hr0 _].
    assert (store_fields {| cols := Z.of_nat n; coeffs := blank n 1 |} 0 0 r0
            = Some {| cols := Z.of_nat n; coeffs := [r0] |}) as Hs0
      by exact (store_fields_fill n [] r0 [] Hr0).
    cbn [load_rows length]. rewrite Hs0. cbn [defined]. rewrite bind_ret.
    reflexivity.
  - apply Forall_cons in Hall as [Hr0 Hall]. apply Forall_cons in Hall as [Hr1 Hall].
    set (todo := blank n (length rest)).
    assert (store_fields {| cols := Z.of_nat n; coeffs := blank n (S (S (length rest))) |} 0 0 r0
            = Some {| cols := Z.of_nat n; coeffs := r0 :: blank n (S (length rest)) |}) as Hs0
      by exact (store_fields_fill n [] r0 _ Hr0).
    assert (store_fields {| cols := Z.of_nat n; coeffs := r0 :: blank n (S (length rest)) |} 1 0 r1
            = Some {| cols := Z.of_nat n; coeffs := r0 :: r1 :: todo |}) as Hs1
      by exact (store_fields_fill n [r0] r1 _ Hr1).
    assert (coeff {| cols := Z.of_nat n; coeffs := r0 :: r1 :: todo |} 1 0 = Some (time_of r1))
      as Ht1 by (apply (coeff_time _ [r0] r1); lia).
    assert (coeff {| cols := Z.of_nat n; coeffs := r0 :: r1 :: todo |} 0 0 = Some (time_of r0))
      as Ht0 by (apply (coeff_time _ [] r0); lia).
    cbn [load_rows length]. rewrite Hs0. cbn [defined]. rewrite bind_ret.
    change (0 + 1) with 1. change (1 + 1) with 2. change (1 =? 1) with true. cbn iota.
    rewrite Hs1. cbn [defined]. rewrite bind_ret.
    rewrite Ht1. cbn [defined]. rewrite bind_ret.
    rewrite Ht0. cbn [defined]. rewrite bind_ret.
    exact (load_rows_checked n rest [r0] r1 _ Hn ltac:(cbn; lia) Hr1 Hall).
Qed.

(** X1: on a regular file the load is the spacing scan: it stops at the first row
    of index 2 or more whose timestamp exceeds its predecessor's by more than
    the step plus five epsilons, naming that row, and otherwise returns the
    rows of the file with the step of the first two timestamps. *)
Theorem LoadMatrixFromCSV_regular (fs : filesystem) (filename : string) (matrix : Matrix)
    (quiet : bool) (dt_ : double) (n : nat) :
  regular n (fs filename) ->
  snd (LoadMatrixFromCSV fs filename matrix quiet dt_)
  = spaced_load n (data_rows (fs filename)) dt_.
Proof.
  exact (LoadMatrixFromCSV_spaced fs filename matrix quiet dt_ n).
Qed.

(** ** Which files a load reads *)









(** ** Numerical equality of doubles *)

Lemma SFeqb_true (x y : spec_float) :
  SFeqb x y = true <-> x <> S754_nan /\ number x = number y.
Proof.
  unfold SFeqb, SFcompare.
  destruct x as [[] | [] | | [] mx ex], y as [[] | [] | | [] my ey]; cbn;
    try (split; [ discriminate | intros [H1 H2]; congruence ]);
    try (split; [ intros _; split; [ discriminate | reflexivity ] | reflexivity ]).
  all: destruct (Z.compare_spec ex ey) as [-> | Hlt | Hgt];
    try (split; [ discriminate | intros [_ [= _ H]]; lia ]).
  all: rewrite Pos.compare_cont_spec; cbn;
    destruct (Pos.compare_spec mx my) as [-> | Hm | Hm]; cbn;
    try (split; [ discriminate | intros [_ [= H]]; lia ]);
    (split; [ intros _; split; [ discriminate | reflexivity ] | reflexivity ]).
Qed.



(** An equal pair is not ordered. *)


(** ** Time invariance and the rollout *)








(** ** The tables of a constructed trajectory *)

Lemma load_tables_done fs this filename_prefix quiet l read :
  load_tables fs this filename_prefix quiet = (l, Done read) ->
  exists dt1 dt2 dt3 l1 l2 l3 l4,
    LoadMatrixFromCSV fs (filename_prefix +:+ "-x.csv") (xpoints_ this) quiet (dt_ this)
      = (l1, Done (xpoints_ read, dt1))
    /\ LoadMatrixFromCSV fs (filename_prefix +:+ "-u.csv") (upoints_ this) quiet dt1
      = (l2, Done (upoints_ read, dt2))
    /\ LoadMatrixFromCSV fs (filename_prefix +:+ "-controller.csv") (kpoints_ this) quiet dt2
      = (l3, Done (kpoints_ read, dt3))
    /\ LoadMatrixFromCSV fs (filename_prefix +:+ "-affine.csv") (affine_points_ this) quiet dt3
      = (l4, Done (affine_points_ read, dt_ read)).
Proof.
  unfold load_tables. intros H.
  step_done H as u0 Hu0. step_done H as str Hstr. step_done H as n Hn.
  step_done H as xd Hx. destruct xd as [xpoints dt1].
  step_done H as ud Hu. destruct ud as [upoints dt2].
  step_done H as kd Hk. destruct kd as [kpoints dt3].
  step_done H as ad Ha. destruct ad as [affine_points dt4].
  injection H as _ <-. cbn. do 7 eexists. repeat split; eassumption.
Qed.

Lemma LoadMatrixFromCSV_as_loaded fs filename quiet dt_ l m' dt' :
  LoadMatrixFromCSV fs filename empty_matrix quiet dt_ = (l, Done (m', dt')) ->
  as_loaded fs filename m'.
Proof.
  intros H. apply LoadMatrixFromCSV_done in H as [(_ & -> & _) | (n & Hn & Hs & Hc & _)].
  - now left.
  - right. eauto.
Qed.

Lemma new_Trajectory_tables fs filename_prefix quiet log loaded :
  new_Trajectory fs filename_prefix quiet = (log, Done loaded) ->
  as_loaded fs (filename_prefix +:+ "-x.csv") (xpoints_ loaded)
  /\ as_loaded fs (filename_prefix +:+ "-u.csv") (upoints_ loaded)
  /\ as_loaded fs (filename_prefix +:+ "-controller.csv") (kpoints_ loaded)
  /\ as_loaded fs (filename_prefix +:+ "-affine.csv") (affine_points_ loaded).
Proof.
  unfold new_Trajectory, LoadTrajectory. intros H.
  apply bind_done in H as (l1 & t1 & l23 & Hread & H & _).
  apply bind_done in H as (l2 & t2 & l3 & Hcheck & Hroll & _).
  apply load_tables_done in Hread as (dt1 & dt2 & dt3 & ? & ? & ? & ? & Hx & Hu & Hk & Ha).
  apply check_tables_done in Hcheck as (_ & (Ex & Eu & Ek & Ea) & _).
  apply load_rollout_done in Hroll as ((Ex' & Eu' & Ek' & Ea') & _).
  rewrite Ex', Eu', Ek', Ea', Ex, Eu, Ek, Ea.
  cbn [default_Trajectory xpoints_ upoints_ kpoints_ affine_points_] in Hx, Hu, Hk, Ha.
  repeat split; eapply LoadMatrixFromCSV_as_loaded; eassumption.
Qed.

Lemma as_loaded_shaped fs filename m : as_loaded fs filename m -> well_shaped m.
Proof. intros [-> | (n & _ & H & _)]; [ apply empty_matrix_shaped | exact H ]. Qed.

Lemma as_loaded_cols fs filename m :
  headers_nonempty fs -> as_loaded fs filename m -> 0 < rows m -> 1 <= cols m.
Proof.
  intros Hfs [-> | (n & Hn & _ & ->)] Hrows; [ unfold rows in Hrows; cbn in Hrows; lia | ].
  apply Hfs in Hn. lia.
Qed.

(** ** Unpacking the gain matrix *)

Section Unpack.
Variables (k_row : list double) (dimension : Z).
Hypothesis dimension_nonneg : 0 <= dimension.

Lemma unpack_rows_rows todo : forall i k_mat,
  0 <= i ->
  (Z.to_nat i + todo = length k_mat)%nat ->
  (i + Z.of_nat todo) * dimension + 1 <= Z.of_nat (length k_row) ->
  exists k_rows,
    unpack_rows todo i k_row dimension k_mat = Some k_rows
    /\ length k_rows = length k_mat
    /\ forall j, (j < length k_mat)%nat ->
         k_rows !! j = if decide (j < Z.to_nat i)%nat then k_mat !! j
                       else Some (gain_segment k_row dimension j).
Proof using dimension_nonneg.
  induction todo as [ | todo IH]; intros i k_mat Hi Hlen Hfit; cbn [unpack_rows].
  - exists k_mat. repeat split. intros j Hj. destruct (decide _); [ reflexivity | lia ].
  - unfold vector_segment.
    assert ((0 <=? i * dimension + 1) && (0 <=? dimension)
            && (i * dimension + 1 + dimension <=? Z.of_nat (length k_row)) = true) as ->.
    { rewrite !andb_true_iff, !Z.leb_le. nia. }
    cbn.
    destruct (lookup_lt_is_Some_2 k_mat (Z.to_nat i)) as [old ->]; [ lia | ]. cbn.
    destruct (IH (i + 1) (<[Z.to_nat i := take (Z.to_nat dimension)
                              (drop (Z.to_nat (i * dimension + 1)) k_row)]> k_mat))
      as (k_rows & -> & Hl & Hrows); [ lia | rewrite length_insert; lia | nia | ].
    rewrite length_insert in Hl, Hrows.
    exists k_rows. repeat split; [ exact Hl | ]. intros j Hj. rewrite (Hrows j Hj).
    destruct (decide (j < Z.to_nat (i + 1))%nat), (decide (j < Z.to_nat i)%nat);
      try reflexivity; try lia.
    + apply list_lookup_insert_ne. lia.
    + assert (j = Z.to_nat i) as -> by lia.
      rewrite list_lookup_insert_eq by lia. unfold gain_segment. now rewrite Z2Nat.id.
Qed.
End Unpack.

(** X18: for a constructed trajectory and a query time whose index lies in the
    gain table, [GetGainMatrix] returns a matrix of [udimension_] rows and
    [dimension_] columns whose coefficient [(i, j)] is the coefficient of
    column [i * dimension_ + 1 + j] of the gain-table row at that index. *)
Theorem GetGainMatrix_unpacks (fs : filesystem) (filename_prefix : string) (quiet : bool)
    (log : list event) (loaded : Trajectory) (t : double) (index : Z) :
  headers_nonempty fs ->
  new_Trajectory fs filename_prefix quiet = (log, Done loaded) ->
  GetIndexFromTime loaded t false = Some index ->
  0 <= index < rows (kpoints_ loaded) ->
  exists k_mat,
    GetGainMatrix loaded t = Some k_mat
    /\ rows k_mat = udimension_ loaded
    /\ cols k_mat = dimension_ loaded
    /\ well_shaped k_mat
    /\ forall i j, 0 <= i < udimension_ loaded -> 0 <= j < dimension_ loaded ->
         exists v, coeff k_mat i j = Some v
                   /\ coeff (kpoints_ loaded) index (i * dimension_ loaded + 1 + j) = Some v.
Proof.
  intros Hfs Hnew Hindex Hrange.
  destruct (new_Trajectory_tables _ _ _ _ _ Hnew) as (Hx & Hu & Hk & _).
  destruct (LoadTrajectory_done _ _ _ _ _ _ Hnew) as (Hd & Hud & Hkc & _ & Hru & Hrk & _).
  assert (1 <= cols (xpoints_ loaded)) by (eapply as_loaded_cols; eauto; lia).
  assert (1 <= cols (upoints_ loaded)) by (eapply as_loaded_cols; eauto; lia).
  set (dimension := dimension_ loaded) in *. set (udimension := udimension_ loaded) in *.
  assert (0 <= dimension) by lia. assert (0 <= udimension) by lia.
  destruct (as_loaded_shaped _ _ _ Hk) as [_ Hshape].
  destruct (lookup_lt_is_Some_2 (coeffs (kpoints_ loaded)) (Z.to_nat index)) as [k_row Hrow];
    [ unfold rows in Hrange; lia | ].
  assert (Z.of_nat (length k_row) = dimension * udimension + 1) as Hlen.
  { rewrite <- Hkc. exact (proj1 (Forall_lookup _ _) Hshape _ _ Hrow). }
  destruct (unpack_rows_rows k_row dimension ltac:(assumption) (Z.to_nat udimension) 0
              (replicate (Z.to_nat udimension) (replicate (Z.to_nat dimension) 0%float)))
    as (k_rows & Hunpack & Hrows & Hseg);
    [ lia | rewrite length_replicate; lia | nia | ].
  rewrite length_replicate in Hrows, Hseg.
  exists {| cols := dimension; coeffs := k_rows |}.
  split; [ | split; [ | split; [ | split ] ] ].
  - unfold GetGainMatrix. rewrite Hindex. cbn.
    unfold matrix_row. destruct (Z.leb_spec 0 index); [ | lia ]. rewrite Hrow. cbn.
    fold dimension udimension. unfold resize.
    destruct (Z.leb_spec 0 udimension), (Z.leb_spec 0 dimension); try lia. cbn.
    now rewrite Hunpack.
  - unfold rows. cbn. lia.
  - reflexivity.
  - split; [ assumption | ]. cbn. apply Forall_lookup. intros n r Hn.
    assert (n < Z.to_nat udimension)%nat as Hlt
      by (rewrite <- Hrows; eapply lookup_lt_Some, Hn).
    rewrite (Hseg n Hlt) in Hn. destruct (decide _); [ lia | ]. injection Hn as <-.
    unfold gain_segment. rewrite length_take, length_drop. nia.
  - intros i j Hi Hj.
    destruct (lookup_lt_is_Some_2 k_row (Z.to_nat (i * dimension + 1 + j))) as [v Hv]; [ nia | ].
    exists v. unfold coeff. cbn [coeffs].
    destruct (Z.leb_spec 0 i), (Z.leb_spec 0 j), (Z.leb_spec 0 index),
      (Z.leb_spec 0 (i * dimension + 1 + j)); try lia; try nia. cbn.
    rewrite Hrow, (Hseg (Z.to_nat i)) by lia. destruct (decide _); [ lia | ]. cbn.
    split; [ | exact Hv ].
    unfold gain_segment. rewrite lookup_take_lt, lookup_drop by lia.
    rewrite Z2Nat.id, <- Z2Nat.inj_add by nia. exact Hv.
Qed.

(** ** The index of a time *)

Lemma SFcompare_swap (x y : spec_float) :
  SFcompare y x = option_map CompOpp (SFcompare x y).
Proof.
  unfold SFcompare.
  destruct x as [[] | [] | | [] mx ex], y as [[] | [] | | [] my ey]; cbn; try reflexivity.
  all: rewrite (Z.compare_antisym ey ex); destruct (ey ?= ex)%Z; cbn; try reflexivity.
  all: rewrite !Pos.compare_cont_spec; cbn; rewrite (Pos.compare_antisym my mx).
  all: now destruct (my ?= mx)%positive.
Qed.

Lemma double_leb_not_ltb (x y : double) :
  (x <=? y)%float = true -> (y <? x)%float = false.
Proof.
  rewrite FloatAxioms.leb_spec, FloatAxioms.ltb_spec. unfold SFleb, SFltb.
  rewrite (SFcompare_swap (Prim2SF x) (Prim2SF y)).
  now destruct (SFcompare (Prim2SF x) (Prim2SF y)) as [[ | | ] | ].
Qed.

(** Inside the time bounds the index is the sum of two truncated quotients,
    and one more when the single-precision remainder exceeds half a step. *)
Lemma GetIndexFromTime_inside (this : Trajectory) (t t0 tf : double) :
  GetTimeAtIndex this 0 = Some t0 ->
  GetMaxTime this = Some tf ->
  (t0 <=? t)%float = true ->
  (t <=? tf)%float = true ->
  GetIndexFromTime this t false =
    (num_dts ← Double.to_int (t / dt_ this)%float;
     num_dts ← (if (0.5 * dt_ this <? Double.to_float (Double.fmod t (dt_ this)))%float
                then int_add num_dts 1 else Some num_dts);
     starting_dts ← Double.to_int (t0 / dt_ this)%float;
     int_add num_dts starting_dts).
Proof.
  unfold GetTimeAtIndex, GetMaxTime, GetIndexFromTime. intros -> -> H0 Hf. cbn.
  now rewrite (double_leb_not_ltb _ _ H0), (double_leb_not_ltb _ _ Hf).
Qed.

(** X2: a time before the first timestamp maps to index 0, a time after the
    last timestamp to the last row of the chosen table. *)
Theorem GetIndexFromTime_clamps (this : Trajectory) (t t0 tf : double) (use_rollout : bool) :
  let points := if use_rollout then xpoints_rollout_ this else xpoints_ this in
  coeff points 0 0 = Some t0 ->
  coeff points (rows points - 1) 0 = Some tf ->
  ((t <? t0)%float = true -> GetIndexFromTime this t use_rollout = Some 0)
  /\ ((t0 <=? t)%float = true -> (tf <? t)%float = true ->
      GetIndexFromTime this t use_rollout = Some (rows points - 1)).
Proof.
  intros points H0 Hf. unfold GetIndexFromTime. fold points. rewrite H0, Hf. cbn. split.
  - now intros ->.
  - intros Hlo Hhi. now rewrite (double_leb_not_ltb _ _ Hlo), Hhi.
Qed.

Lemma positive_finite (x : double) :
  (0 <? x)%float = true -> (x <? infinity)%float = true ->
  exists m e, Prim2SF x = S754_finite false m e.
Proof.
  rewrite !FloatAxioms.ltb_spec. unfold SFltb, SFcompare.
  change (Prim2SF 0) with (S754_zero false).
  change (Prim2SF infinity) with (S754_infinity false).
  destruct (Prim2SF x) as [ | [] | | [] m e]; try discriminate. eauto.
Qed.

Lemma half_step_nonneg (x : double) m e :
  Prim2SF x = S754_finite false m e -> (0.5 * x <? 0)%float = false.
Proof.
  intros Hx. rewrite FloatAxioms.ltb_spec, FloatAxioms.mul_spec, Hx.
  change (Prim2SF 0) with (S754_zero false).
  change (Prim2SF 0.5) with (S754_finite false 4503599627370496 (-53)).
  unfold SF64mul, SFmul, xorb, binary_round_aux.
  destruct (shr_fexp _ _ _ _ _) as [mrs' e'].
  destruct (shr_fexp _ _ _ _ _) as [mrs'' e''].
  destruct (shr_m mrs'') as [ | p | p]; try reflexivity.
  now destruct (e'' <=? emax - prec).
Qed.

Lemma zero_over_step (x : double) m e :
  Prim2SF x = S754_finite false m e -> Double.to_int (0 / x)%float = Some 0.
Proof.
  intros Hx. unfold Double.to_int, Double.trunc.
  rewrite FloatAxioms.div_spec, Hx. reflexivity.
Qed.

(** X3: with a first timestamp of 0 and a positive finite step, time 0 maps
    to index 0. *)
Theorem GetIndexFromTime_zero (this : Trajectory) (tf : double) :
  GetTimeAtIndex this 0 = Some 0%float ->
  GetMaxTime this = Some tf ->
  (0 <=? tf)%float = true ->
  (0 <? dt_ this)%float = true -> (dt_ this <? infinity)%float = true ->
  GetIndexFromTime this 0%float false = Some 0.
Proof.
  intros H0 Hf Hhi Hpos Hfin.
  destruct (positive_finite _ Hpos Hfin) as (m & e & Hdt).
  rewrite (GetIndexFromTime_inside this 0%float 0%float tf H0 Hf eq_refl Hhi).
  rewrite (zero_over_step _ _ _ Hdt). cbn [mbind option_bind].
  assert (Double.fmod 0%float (dt_ this) = 0%float) as ->
    by (unfold Double.fmod; rewrite Hdt; reflexivity).
  change (Double.to_float 0%float) with 0%float.
  now rewrite (half_step_nonneg _ _ _ Hdt).
Qed.








(** ** What the tables of a constructed trajectory hold *)

Lemma bind_snd {A B} (m : io A) (k : A -> io B) :
  snd (m ≫= k) = match snd m with Done a => snd (k a) | Stop f => Stop f end.
Proof. destruct m as [l [a | f]]; cbn; [ now destruct (k a) | reflexivity ]. Qed.

Lemma spaced_load_done n body dt_ m dt' :
  spaced_load n body dt_ = Done (m, dt') ->
  m = {| cols := Z.of_nat n; coeffs := body |} /\ dt' = step_of body dt_ /\ no_gap body.
Proof.
  unfold spaced_load, step_of, no_gap. destruct body as [ | r0 [ | r1 rest]].
  - intros [= <- <-]. auto.
  - intros [= <- <-]. auto.
  - destruct (first_gap _ _ _ _) as [[row diff] | ]; cbn; [ discriminate | ].
    intros [= <- <-]. auto.
Qed.

Lemma spaced_load_no_gap n body dt_ :
  no_gap body ->
  spaced_load n body dt_ = Done ({| cols := Z.of_nat n; coeffs := body |}, step_of body dt_).
Proof.
  unfold spaced_load, step_of, no_gap. destruct body as [ | r0 [ | r1 rest]]; try reflexivity.
  now intros ->.
Qed.

Lemma LoadMatrixFromCSV_regular_done fs filename matrix quiet dt_ l m dt' n :
  regular n (fs filename) ->
  LoadMatrixFromCSV fs filename matrix quiet dt_ = (l, Done (m, dt')) ->
  m = table_of (fs filename) n /\ dt' = step_of (data_rows (fs filename)) dt_.
Proof.
  intros Hreg H. apply (f_equal snd) in H. cbn [snd] in H.
  rewrite (LoadMatrixFromCSV_spaced fs filename matrix quiet dt_ n Hreg) in H.
  apply spaced_load_done in H as (-> & -> & _). auto.
Qed.

Lemma LoadMatrixFromCSV_missing_done fs filename matrix quiet dt_ l m dt' :
  header_fields (fs filename) = None ->
  LoadMatrixFromCSV fs filename matrix quiet dt_ = (l, Done (m, dt')) ->
  m = matrix /\ dt' = dt_.
Proof.
  intros Hh H. apply LoadMatrixFromCSV_done in H as [(_ & -> & ->) | (n & Hn & _)]; [ auto | ].
  congruence.
Qed.

(** What a load that returns went through: the four table loads, the checks
    and the rollout. *)
Lemma new_Trajectory_done fs filename_prefix quiet log loaded :
  new_Trajectory fs filename_prefix quiet = (log, Done loaded) ->
  exists str l0 dt1 dt2 dt3 dt4 l1 l2 l3 l4,
    last_five filename_prefix = Some str
    /\ stoi str = (l0, Done (trajectory_number_ loaded))
    /\ filename_prefix_ loaded = filename_prefix
    /\ LoadMatrixFromCSV fs (filename_prefix +:+ "-x.csv") empty_matrix quiet 0%float
       = (l1, Done (xpoints_ loaded, dt1))
    /\ LoadMatrixFromCSV fs (filename_prefix +:+ "-u.csv") empty_matrix quiet dt1
       = (l2, Done (upoints_ loaded, dt2))
    /\ LoadMatrixFromCSV fs (filename_prefix +:+ "-controller.csv") empty_matrix quiet dt2
       = (l3, Done (kpoints_ loaded, dt3))
    /\ LoadMatrixFromCSV fs (filename_prefix +:+ "-affine.csv") empty_matrix quiet dt3
       = (l4, Done (affine_points_ loaded, dt4))
    /\ (if IsTimeInvariant loaded
        then exists l5,
            LoadMatrixFromCSV fs (filename_prefix +:+ "-rollout.csv") empty_matrix quiet dt4
            = (l5, Done (xpoints_rollout_ loaded, dt_ loaded))
        else xpoints_rollout_ loaded = empty_matrix /\ dt_ loaded = dt4).
Proof.
  unfold new_Trajectory, LoadTrajectory. intros H.
  apply bind_done in H as (la & t1 & lb & Hread & H & _).
  apply bind_done in H as (lc & t2 & ld & Hcheck & Hroll & _).
  unfold load_tables in Hread.
  step_done Hread as u0 Hu0. step_done Hread as str Hstr. step_done Hread as num Hnum.
  step_done Hread as xd Hx. destruct xd as [xpoints dt1].
  step_done Hread as ud Hu. destruct ud as [upoints dt2].
  step_done Hread as kd Hk. destruct kd as [kpoints dt3].
  step_done Hread as ad Ha. destruct ad as [affine_points dt4].
  injection Hread as _ <-.
  cbn [default_Trajectory xpoints_ upoints_ kpoints_ affine_points_ dt_] in Hx, Hu, Hk, Ha.
  unfold check_tables in Hcheck. cbn [xpoints_ upoints_ kpoints_ affine_points_] in Hcheck.
  repeat match type of Hcheck with
         | (if ?c then _ else _) = _ => destruct c; [ discriminate Hcheck | ]
         end.
  injection Hcheck as _ <-.
  assert (last_five filename_prefix = Some str) as Hfive.
  { destruct (last_five filename_prefix); [ | discriminate Hstr ].
    now injection Hstr as _ ->. }
  unfold load_rollout in Hroll.
  cbn [xpoints_rollout_ dt_ default_Trajectory] in Hroll.
  match type of Hroll with (if ?c then _ else _) = _ => destruct c eqn:Hti end.
  - step_done Hroll as rd Hr. destruct rd as [xpoints_rollout dt5].
    injection Hroll as _ <-.
    exists str. do 9 eexists. unfold IsTimeInvariant in *. cbn in *. rewrite Hti.
    repeat split; eauto.
  - injection Hroll as _ <-.
    exists str. do 9 eexists. unfold IsTimeInvariant in *. cbn in *. rewrite Hti.
    repeat split; eauto.
Qed.

Lemma LoadMatrixFromCSV_holds fs filename matrix quiet dt_ l m dt' :
  LoadMatrixFromCSV fs filename matrix quiet dt_ = (l, Done (m, dt')) ->
  holds_file fs filename m.
Proof. intros H n Hreg. now apply (LoadMatrixFromCSV_regular_done _ _ _ _ _ _ _ _ _ Hreg H). Qed.

(** X4: the tables of a constructed trajectory are the rows of its files. Each
    of the state, control, gain and affine tables holds the rows of its file
    whenever that file is regular, and so does the rollout table of a
    time-invariant trajectory; the rollout table of a trajectory that is not
    time invariant is empty, whatever the rollout file holds. *)
Theorem loaded_tables_hold_files (fs : filesystem) (filename_prefix : string) (quiet : bool)
    (log : list event) (loaded : Trajectory) :
  new_Trajectory fs filename_prefix quiet = (log, Done loaded) ->
  holds_file fs (filename_prefix +:+ "-x.csv") (xpoints_ loaded)
  /\ holds_file fs (filename_prefix +:+ "-u.csv") (upoints_ loaded)
  /\ holds_file fs (filename_prefix +:+ "-controller.csv") (kpoints_ loaded)
  /\ holds_file fs (filename_prefix +:+ "-affine.csv") (affine_points_ loaded)
  /\ (if IsTimeInvariant loaded
      then holds_file fs (filename_prefix +:+ "-rollout.csv") (xpoints_rollout_ loaded)
      else xpoints_rollout_ loaded = empty_matrix).
Proof.
  intros H.
  apply new_Trajectory_done in H
    as (str & l0 & dt1 & dt2 & dt3 & dt4 & l1 & l2 & l3 & l4 & _ & _ & _ & Hx & Hu & Hk & Ha & Hr).
  repeat (split; [ eapply LoadMatrixFromCSV_holds; eassumption | ]).
  destruct (IsTimeInvariant loaded).
  - destruct Hr as [l5 Hr]. eapply LoadMatrixFromCSV_holds; eassumption.
  - apply Hr.
Qed.

(** *** The rollout table *)





Lemma LoadMatrixFromCSV_step fs filename matrix quiet dt_ l m dt' :
  readable (fs filename) ->
  LoadMatrixFromCSV fs filename matrix quiet dt_ = (l, Done (m, dt')) ->
  dt' = file_step (fs filename) dt_.
Proof.
  unfold file_step. intros [Hnone | [n Hreg]] H.
  - rewrite Hnone. now apply (LoadMatrixFromCSV_missing_done _ _ _ _ _ _ _ _ Hnone) in H.
  - rewrite (proj1 Hreg). now apply (LoadMatrixFromCSV_regular_done _ _ _ _ _ _ _ _ _ Hreg) in H.
Qed.

(** X5: the five tables share one [dt_]. Every file that is read overwrites it
    with the difference of its own first two timestamps; a file of fewer than
    two rows, and a file the parser rejects, leave it as they found it. So the
    step of a constructed trajectory is the one of the last file with two rows,
    in the order state, control, gain, affine and, for a time-invariant gain,
    rollout; from 0 when no file has two rows. *)
Theorem loaded_step_of_last_table (fs : filesystem) (filename_prefix : string) (quiet : bool)
    (log : list event) (loaded : Trajectory) :
  new_Trajectory fs filename_prefix quiet = (log, Done loaded) ->
  (forall suffix,
     suffix ∈ ["-x.csv"; "-u.csv"; "-controller.csv"; "-affine.csv"; "-rollout.csv"] ->
     readable (fs (filename_prefix +:+ suffix))) ->
  let step suffix := file_step (fs (filename_prefix +:+ suffix)) in
  let dt4 := step "-affine.csv" (step "-controller.csv" (step "-u.csv" (step "-x.csv" 0%float))) in
  dt_ loaded = if IsTimeInvariant loaded then step "-rollout.csv" dt4 else dt4.
Proof.
  intros H Hfiles step dt4. subst step dt4.
  apply new_Trajectory_done in H
    as (str & l0 & dt1 & dt2 & dt3 & dt4 & l1 & l2 & l3 & l4 & _ & _ & _ & Hx & Hu & Hk & Ha & Hr).
  apply LoadMatrixFromCSV_step in Hx; [ | apply Hfiles; repeat constructor ].
  apply LoadMatrixFromCSV_step in Hu; [ | apply Hfiles; repeat constructor ].
  apply LoadMatrixFromCSV_step in Hk; [ | apply Hfiles; repeat constructor ].
  apply LoadMatrixFromCSV_step in Ha; [ | apply Hfiles; repeat constructor ].
  subst dt1 dt2 dt3 dt4.
  destruct (IsTimeInvariant loaded).
  - destruct Hr as [l5 Hr].
    apply LoadMatrixFromCSV_step in Hr; [ exact Hr | apply Hfiles; repeat constructor ].
  - apply Hr.
Qed.

Lemma LoadMatrixFromCSV_loads fs filename matrix quiet dt_ n :
  regular n (fs filename) -> no_gap (data_rows (fs filename)) ->
  snd (LoadMatrixFromCSV fs filename matrix quiet dt_)
  = Done (table_of (fs filename) n, step_of (data_rows (fs filename)) dt_).
Proof.
  intros Hreg Hgap. rewrite (LoadMatrixFromCSV_spaced _ _ _ _ _ n Hreg).
  now apply spaced_load_no_gap.
Qed.

(** X6: a consistent data set loads. When the prefix ends in a number, the
    four tables are regular files of equal row counts, the gain file has one
    column per pair of a state and a control and the affine file one per
    control, no table has a row later than its step allows, and the rollout
    file is missing or regular, the constructor returns a trajectory with that
    number, that prefix, the dimensions of the headers and the rows of the
    files. *)
Theorem loadable_loads (fs : filesystem) (filename_prefix : string) (quiet : bool)
    (number : Z) (nx nu : nat) :
  loadable fs filename_prefix number nx nu ->
  exists loaded,
    snd (new_Trajectory fs filename_prefix quiet) = Done loaded
    /\ trajectory_number_ loaded = number
    /\ filename_prefix_ loaded = filename_prefix
    /\ dimension_ loaded = Z.of_nat nx - 1
    /\ udimension_ loaded = Z.of_nat nu - 1
    /\ xpoints_ loaded = table_of (fs (filename_prefix +:+ "-x.csv")) nx
    /\ upoints_ loaded = table_of (fs (filename_prefix +:+ "-u.csv")) nu
    /\ kpoints_ loaded
       = table_of (fs (filename_prefix +:+ "-controller.csv")) (S ((nx - 1) * (nu - 1)))
    /\ affine_points_ loaded = table_of (fs (filename_prefix +:+ "-affine.csv")) nu.
Proof.
  intros [(str & Hfive & Hnum) Rx Ru Rk Ra (Hxu & Hxk & Hxa) Hgap Hroll].
  assert (1 <= nx)%nat by apply Rx. assert (1 <= nu)%nat by apply Ru.
  unfold new_Trajectory, LoadTrajectory. rewrite bind_snd.
  assert (snd (load_tables fs default_Trajectory filename_prefix quiet)
          = Done {| trajectory_number_ := number;
                    dimension_ := 0;
                    udimension_ := 0;
                    filename_prefix_ := filename_prefix;
                    dt_ := step_of (data_rows (fs (filename_prefix +:+ "-affine.csv")))
                             (step_of (data_rows (fs (filename_prefix +:+ "-controller.csv")))
                                (step_of (data_rows (fs (filename_prefix +:+ "-u.csv")))
                                   (step_of (data_rows (fs (filename_prefix +:+ "-x.csv")))
                                      0%float)));
                    xpoints_ := table_of (fs (filename_prefix +:+ "-x.csv")) nx;
                    upoints_ := table_of (fs (filename_prefix +:+ "-u.csv")) nu;
                    kpoints_ := table_of (fs (filename_prefix +:+ "-controller.csv"))
                                  (S ((nx - 1) * (nu - 1)));
                    affine_points_ := table_of (fs (filename_prefix +:+ "-affine.csv")) nu;
                    xpoints_rollout_ := empty_matrix |}) as ->.
  { unfold load_tables. rewrite bind_snd.
    assert (snd (if quiet then mret () else emit (LoadingTrajectory filename_prefix)) = Done tt)
      as -> by now destruct quiet.
    rewrite bind_snd, Hfive. cbn [snd mret io_ret]. rewrite bind_snd, Hnum.
    rewrite bind_snd, (LoadMatrixFromCSV_loads _ _ _ _ _ nx Rx) by (apply Hgap; repeat constructor).
    rewrite bind_snd, (LoadMatrixFromCSV_loads _ _ _ _ _ nu Ru) by (apply Hgap; repeat constructor).
    rewrite bind_snd, (LoadMatrixFromCSV_loads _ _ _ _ _ _ Rk) by (apply Hgap; repeat constructor).
    rewrite bind_snd, (LoadMatrixFromCSV_loads _ _ _ _ _ nu Ra) by (apply Hgap; repeat constructor).
    reflexivity. }
  rewrite bind_snd.
  unfold check_tables, table_of, rows. cbn [xpoints_ upoints_ kpoints_ affine_points_ cols coeffs].
  assert ((Z.of_nat (S ((nx - 1) * (nu - 1))) - 1 =? (Z.of_nat nx - 1) * (Z.of_nat nu - 1)) = true)
    as -> by (apply Z.eqb_eq; nia).
  rewrite <- Hxu, <- Hxk, <- Hxa, !Z.eqb_refl. cbn [negb orb snd mret io_ret].
  unfold load_rollout.
  match goal with |- context [if ?c then _ else _] => destruct c end.
  - rewrite bind_snd.
    destruct Hroll as [Hnone | [nr Rr]].
    + unfold LoadMatrixFromCSV at 1. rewrite !bind_snd.
      assert (snd (if quiet then mret () else emit (Loading (filename_prefix +:+ "-rollout.csv")))
              = Done tt) as -> by now destruct quiet.
      cbn [snd emit xpoints_rollout_ dt_]. rewrite Hnone. cbn [snd mret io_ret mbind io_bind emit].
      eexists. split; [ reflexivity | ]. cbn. repeat split; lia.
    + cbn [xpoints_rollout_ dt_].
      rewrite (LoadMatrixFromCSV_loads _ _ _ _ _ nr Rr) by (apply Hgap; repeat constructor).
      eexists. split; [ reflexivity | ]. cbn. repeat split; lia.
  - eexists. split; [ reflexivity | ]. cbn. repeat split; lia.
Qed.

(** ** Rectangular tables *)

(** X7: every table of a constructed trajectory is rectangular: each of its
    rows has as many coefficients as the table has columns, and the column
    count is not negative. This holds for the rollout table too, loaded or
    left empty. *)
Theorem loaded_tables_well_shaped (fs : filesystem) (filename_prefix : string) (quiet : bool)
    (log : list event) (loaded : Trajectory) :
  new_Trajectory fs filename_prefix quiet = (log, Done loaded) ->
  well_shaped (xpoints_ loaded) /\ well_shaped (upoints_ loaded)
  /\ well_shaped (kpoints_ loaded) /\ well_shaped (affine_points_ loaded)
  /\ well_shaped (xpoints_rollout_ loaded).
Proof.
  intros H.
  apply new_Trajectory_done in H
    as (str & l0 & dt1 & dt2 & dt3 & dt4 & l1 & l2 & l3 & l4 & _ & _ & _ & Hx & Hu & Hk & Ha & Hr).
  repeat (split; [ eapply as_loaded_shaped, LoadMatrixFromCSV_as_loaded; eassumption | ]).
  destruct (IsTimeInvariant loaded).
  - destruct Hr as [l5 Hr]. eapply as_loaded_shaped, LoadMatrixFromCSV_as_loaded; eassumption.
  - destruct Hr as [-> _]. apply empty_matrix_shaped.
Qed.

(** ** The state and the control at a time *)

Lemma row_tail (m : Matrix) (index : Z) (row : list double) :
  well_shaped m -> 1 <= cols m -> 0 <= index ->
  coeffs m !! Z.to_nat index = Some row ->
  (x ← matrix_row m index; vector_tail x (cols m - 1)) = Some (drop 1 row)
  /\ Z.of_nat (length (drop 1 row)) = cols m - 1.
Proof.
  intros [_ Hshape] Hcols Hindex Hrow.
  pose proof (proj1 (Forall_lookup _ _) Hshape _ _ Hrow) as Hlen. cbn in Hlen.
  unfold matrix_row. destruct (Z.leb_spec 0 index); [ | lia ]. rewrite Hrow. cbn.
  unfold vector_tail.
  destruct (Z.leb_spec 0 (cols m - 1)); [ | lia ].
  destruct (Z.leb_spec (cols m - 1) (Z.of_nat (length row))); [ | lia ]. cbn.
  replace (length row - Z.to_nat (cols m - 1))%nat with 1%nat by lia.
  split; [ reflexivity | ]. rewrite length_drop. lia.
Qed.

Lemma coeff_some (m : Matrix) (r c : Z) (v : double) :
  coeff m r c = Some v ->
  exists row, coeffs m !! Z.to_nat r = Some row /\ row !! Z.to_nat c = Some v.
Proof.
  unfold coeff. destruct ((0 <=? r) && (0 <=? c)); [ | discriminate ].
  destruct (coeffs m !! Z.to_nat r) as [row | ]; [ | discriminate ]. cbn. eauto.
Qed.

Lemma GetIndexFromTime_some (this : Trajectory) t index :
  GetIndexFromTime this t false = Some index ->
  exists r0 t0, coeffs (xpoints_ this) !! 0%nat = Some r0 /\ r0 !! 0%nat = Some t0.
Proof.
  unfold GetIndexFromTime.
  destruct (coeff (xpoints_ this) 0 0) as [t0 | ] eqn:H0; [ | discriminate ].
  intros _. apply coeff_some in H0 as (r0 & Hr0 & Ht0). eauto.
Qed.

(** The state at a valid index of a rectangular table: the row without its
    timestamp. *)
Lemma GetState_at (this : Trajectory) (t : double) (index : Z) :
  well_shaped (xpoints_ this) ->
  GetIndexFromTime this t false = Some index ->
  0 <= index < rows (xpoints_ this) ->
  exists row,
    coeffs (xpoints_ this) !! Z.to_nat index = Some row
    /\ GetState this t = Some (drop 1 row)
    /\ Z.of_nat (length (drop 1 row)) = cols (xpoints_ this) - 1.
Proof.
  intros Hx Hindex Hrange.
  destruct (GetIndexFromTime_some _ _ _ Hindex) as (r0 & t0 & Hr0 & Ht0).
  assert (1 <= cols (xpoints_ this)) as Hcols.
  { rewrite <- (proj1 (Forall_lookup _ _) (proj2 Hx) _ _ Hr0).
    apply lookup_lt_Some in Ht0. lia. }
  destruct (lookup_lt_is_Some_2 (coeffs (xpoints_ this)) (Z.to_nat index)) as [row Hrow];
    [ unfold rows in Hrange; lia | ].
  exists row. split; [ exact Hrow | ].
  destruct (row_tail _ _ _ Hx Hcols (proj1 Hrange) Hrow) as [Htail Hlen].
  unfold GetState. rewrite Hindex. cbn. auto.
Qed.

(** X8: on a constructed trajectory, when [GetIndexFromTime] gives a row index
    of the state table, [GetState] returns that row of the table without its
    first column, the timestamp: a vector of [dimension_] coefficients. *)
Theorem GetState_row (fs : filesystem) (filename_prefix : string) (quiet : bool)
    (log : list event) (loaded : Trajectory) (t : double) (index : Z) :
  new_Trajectory fs filename_prefix quiet = (log, Done loaded) ->
  GetIndexFromTime loaded t false = Some index ->
  0 <= index < rows (xpoints_ loaded) ->
  exists row,
    coeffs (xpoints_ loaded) !! Z.to_nat index = Some row
    /\ GetState loaded t = Some (drop 1 row)
    /\ Z.of_nat (length (drop 1 row)) = dimension_ loaded.
Proof.
  intros Hnew Hindex Hrange.
  destruct (LoadTrajectory_done _ _ _ _ _ _ Hnew) as (Hd & _).
  pose proof (as_loaded_shaped _ _ _ (proj1 (new_Trajectory_tables _ _ _ _ _ Hnew))) as Hx.
  destruct (GetState_at loaded t index Hx Hindex Hrange) as (row & Hrow & Hstate & Hlen).
  exists row. rewrite Hd. auto.
Qed.

(** X9: on a constructed trajectory whose files have no empty header, when
    [GetIndexFromTime] gives a row index of the state table, [GetUCommand]
    returns the row of the control table at that index without its timestamp:
    a vector of [udimension_] coefficients. The index comes from the
    timestamps of the state table, never from those of the control table. *)
Theorem GetUCommand_row (fs : filesystem) (filename_prefix : string) (quiet : bool)
    (log : list event) (loaded : Trajectory) (t : double) (index : Z) :
  headers_nonempty fs ->
  new_Trajectory fs filename_prefix quiet = (log, Done loaded) ->
  GetIndexFromTime loaded t false = Some index ->
  0 <= index < rows (xpoints_ loaded) ->
  exists row,
    coeffs (upoints_ loaded) !! Z.to_nat index = Some row
    /\ GetUCommand loaded t = Some (drop 1 row)
    /\ Z.of_nat (length (drop 1 row)) = udimension_ loaded.
Proof.
  intros Hfs Hnew Hindex Hrange.
  destruct (LoadTrajectory_done _ _ _ _ _ _ Hnew) as (_ & Hud & _ & _ & Hrows & _).
  destruct (new_Trajectory_tables _ _ _ _ _ Hnew) as (_ & Hfile & _).
  pose proof (as_loaded_shaped _ _ _ Hfile) as Hu.
  assert (1 <= cols (upoints_ loaded)) as Hcols
    by (eapply as_loaded_cols; eauto; lia).
  destruct (lookup_lt_is_Some_2 (coeffs (upoints_ loaded)) (Z.to_nat index)) as [row Hrow];
    [ unfold rows in Hrange, Hrows; lia | ].
  exists row. split; [ exact Hrow | ].
  destruct (row_tail _ _ _ Hu Hcols (proj1 Hrange) Hrow) as [Htail Hlen].
  unfold GetUCommand. rewrite Hindex. cbn. rewrite Hud. auto.
Qed.

(** ** Queries without a table *)

Lemma coeff_empty (m : Matrix) (r c : Z) : rows m = 0 -> coeff m r c = None.
Proof.
  unfold rows, coeff. intros H. destruct (coeffs m); [ | cbn in H; lia ].
  now destruct ((0 <=? r) && (0 <=? c)).
Qed.

(** X10: with no row in the state table, as in a trajectory that was default
    constructed and never loaded, every query by time reads the coefficient
    (0, 0) of an empty table: the index, the state, the control, the gain
    matrix and the maximum time are all undefined. *)
Theorem empty_state_table_undefined (this : Trajectory) (t : double) :
  rows (xpoints_ this) = 0 ->
  GetIndexFromTime this t false = None
  /\ GetState this t = None
  /\ GetUCommand this t = None
  /\ GetGainMatrix this t = None
  /\ GetMaxTime this = None.
Proof.
  intros H.
  assert (GetIndexFromTime this t false = None) as Hindex
    by (unfold GetIndexFromTime; rewrite !coeff_empty by exact H; reflexivity).
  unfold GetState, GetUCommand, GetGainMatrix, GetMaxTime.
  rewrite Hindex, coeff_empty by exact H. auto.
Qed.

(** X11: when the gain of a constructed trajectory is not time invariant, or
    its rollout file cannot be parsed, the rollout table stays empty and the
    rollout state is undefined at every time. *)
Theorem GetRolloutState_without_rollout (fs : filesystem) (filename_prefix : string)
    (quiet : bool) (log : list event) (loaded : Trajectory) (t : double) :
  new_Trajectory fs filename_prefix quiet = (log, Done loaded) ->
  IsTimeInvariant loaded = false
  \/ header_fields (fs (filename_prefix +:+ "-rollout.csv")) = None ->
  xpoints_rollout_ loaded = empty_matrix
  /\ GetIndexFromTime loaded t true = None
  /\ GetRolloutState loaded t = None.
Proof.
  intros H Hno.
  apply new_Trajectory_done in H
    as (str & l0 & dt1 & dt2 & dt3 & dt4 & l1 & l2 & l3 & l4 & _ & _ & _ & _ & _ & _ & _ & Hr).
  assert (xpoints_rollout_ loaded = empty_matrix) as Hempty.
  { destruct (IsTimeInvariant loaded).
    - destruct Hno as [Hno | Hno]; [ discriminate | ]. destruct Hr as [l5 Hr].
      now apply (LoadMatrixFromCSV_missing_done _ _ _ _ _ _ _ _ Hno) in Hr.
    - apply Hr. }
  split; [ exact Hempty | ].
  assert (GetIndexFromTime loaded t true = None) as Hindex
    by (unfold GetIndexFromTime; rewrite Hempty; reflexivity).
  unfold GetRolloutState. rewrite Hindex. split; reflexivity.
Qed.

(** ** A step of zero *)

Lemma trunc_over_zero (t d : double) :
  (d =? 0)%float = true -> Double.to_int (t / d)%float = None.
Proof.
  rewrite FloatAxioms.eqb_spec, SFeqb_true. change (Prim2SF 0) with (S754_zero false).
  intros [_ Hd]. unfold Double.to_int, Double.trunc. rewrite FloatAxioms.div_spec.
  destruct (Prim2SF d) as [sd | | | ]; try discriminate Hd.
  now destruct (Prim2SF t) as [ | | | ].
Qed.

(** X12: a step of zero makes every query inside the time range undefined:
    for a time between the first and the last timestamp the index is the
    conversion to [int] of a division by zero, an infinity or a NaN. *)
Theorem GetIndexFromTime_zero_step (this : Trajectory) (t t0 tf : double) :
  (dt_ this =? 0)%float = true ->
  GetTimeAtIndex this 0 = Some t0 ->
  GetMaxTime this = Some tf ->
  (t0 <=? t)%float = true ->
  (t <=? tf)%float = true ->
  GetIndexFromTime this t false = None /\ GetState this t = None.
Proof.
  intros Hdt H0 Hf Hlo Hhi.
  assert (GetIndexFromTime this t false = None) as Hindex.
  { rewrite (GetIndexFromTime_inside _ _ _ _ H0 Hf Hlo Hhi).
    rewrite (trunc_over_zero t _ Hdt). reflexivity. }
  unfold GetState. rewrite Hindex. split; reflexivity.
Qed.

(** ** The trajectory number *)

Lemma digit_of_char (d : nat) :
  (d < 10)%nat ->
  digit (digit_char d) = Some (Z.of_nat d) /\ isspace (digit_char d) = false
  /\ digit_char d <> "-"%char /\ digit_char d <> "+"%char.
Proof.
  intros H. do 10 (destruct d as [ | d]; [ repeat split; discriminate | ]). lia.
Qed.

Lemma leading_digits_decimal (ds : list nat) : forall acc,
  Forall (fun d => (d < 10)%nat) ds ->
  leading_digits (digits_string ds) (Some acc) = Some (decimal acc ds).
Proof.
  induction ds as [ | d ds IH]; intros acc Hall; [ reflexivity | ].
  apply Forall_cons in Hall as [Hd Hall]. cbn [digits_string foldr leading_digits].
  rewrite (proj1 (digit_of_char d Hd)). cbn [default decimal foldl].
  fold (digits_string ds). now rewrite IH.
Qed.

Lemma decimal_bound (ds : list nat) : forall acc,
  Forall (fun d => (d < 10)%nat) ds -> 0 <= acc ->
  0 <= decimal acc ds < (acc + 1) * 10 ^ Z.of_nat (length ds).
Proof.
  induction ds as [ | d ds IH]; intros acc Hall Hacc.
  - cbn. lia.
  - apply Forall_cons in Hall as [Hd Hall]. cbn [decimal foldl length].
    fold (decimal (10 * acc + Z.of_nat d) ds).
    specialize (IH (10 * acc + Z.of_nat d) Hall ltac:(lia)).
    rewrite Nat2Z.inj_succ, Z.pow_succ_r by lia. nia.
Qed.

Lemma decimal_in_int (ds : list nat) :
  Forall (fun d => (d < 10)%nat) ds -> (length ds <= 9)%nat ->
  Double.in_int (decimal 0 ds) = true /\ Double.in_int (- decimal 0 ds) = true.
Proof.
  intros Hall Hlen. pose proof (decimal_bound ds 0 Hall ltac:(lia)) as Hb.
  assert (10 ^ Z.of_nat (length ds) <= 10 ^ 9) by (apply Z.pow_le_mono_r; lia).
  unfold Double.in_int, Double.INT_MIN, Double.INT_MAX.
  split; apply andb_true_iff; split; apply Z.leb_le; lia.
Qed.

Lemma stoi_digits (d : nat) (ds : list nat) :
  Forall (fun d => (d < 10)%nat) (d :: ds) -> (length ds <= 8)%nat ->
  stoi (digits_string (d :: ds)) = ([], Done (decimal 0 (d :: ds))).
Proof.
  intros Hall Hlen.
  destruct (decimal_in_int (d :: ds) Hall ltac:(cbn [length]; lia)) as [Hfit _].
  apply Forall_cons in Hall as [Hd Hall].
  destruct (digit_of_char d Hd) as (Hdigit & Hspace & Hminus & Hplus).
  unfold stoi. cbn [digits_string foldr skip_spaces]. rewrite Hspace.
  fold (digits_string ds).
  assert (match digit_char d with
          | "-"%char => (true, digits_string ds)
          | "+"%char => (false, digits_string ds)
          | _ => (false, String (digit_char d) (digits_string ds))
          end = (false, String (digit_char d) (digits_string ds))) as ->.
  { do 10 (destruct d as [ | d]; [ reflexivity | ]). lia. }
  cbn [leading_digits]. rewrite Hdigit. cbn [default].
  rewrite (leading_digits_decimal ds _ Hall).
  change (decimal (10 * 0 + Z.of_nat d) ds) with (decimal 0 (d :: ds)).
  now rewrite Hfit.
Qed.

Lemma stoi_minus_digits (d : nat) (ds : list nat) :
  Forall (fun d => (d < 10)%nat) (d :: ds) -> (length ds <= 8)%nat ->
  stoi (String "-" (digits_string (d :: ds))) = ([], Done (- decimal 0 (d :: ds))).
Proof.
  intros Hall Hlen.
  destruct (decimal_in_int (d :: ds) Hall ltac:(cbn [length]; lia)) as [_ Hfit].
  apply Forall_cons in Hall as [Hd Hall].
  destruct (digit_of_char d Hd) as (Hdigit & _).
  unfold stoi. cbn [skip_spaces]. change (isspace "-") with false. cbn iota.
  cbn [digits_string foldr leading_digits]. rewrite Hdigit. cbn [default].
  fold (digits_string ds). rewrite (leading_digits_decimal ds _ Hall).
  change (decimal (10 * 0 + Z.of_nat d) ds) with (decimal 0 (d :: ds)).
  now rewrite Hfit.
Qed.

Lemma substring_all (s : string) : substring 0 (String.length s) s = s.
Proof. induction s as [ | c s IH]; cbn; [ reflexivity | now rewrite IH ]. Qed.

Lemma substring_suffix (p s : string) :
  substring (String.length p) (String.length s) (p +:+ s) = s.
Proof. induction p as [ | c p IH]; cbn; [ apply substring_all | exact IH ]. Qed.

Lemma length_append (p s : string) :
  String.length (p +:+ s) = (String.length p + String.length s)%nat.
Proof.
  induction p as [ | c p IH]; [ reflexivity | ].
  change (S (String.length (p +:+ s)) = S (String.length p + String.length s)%nat).
  now f_equal.
Qed.

Lemma last_five_suffix (p s : string) :
  String.length s = 5%nat -> last_five (p +:+ s) = Some s.
Proof.
  intros Hs. unfold last_five. cbv zeta. rewrite length_append, Hs.
  destruct (Nat.leb_spec 5 (String.length p + 5)); [ | lia ].
  replace (String.length p + 5 - 5)%nat with (String.length p) by lia.
  rewrite <- Hs at 1. now rewrite substring_suffix.
Qed.

Lemma length_digits_string (ds : list nat) : String.length (digits_string ds) = length ds.
Proof. induction ds as [ | d ds IH]; cbn; [ reflexivity | now f_equal ]. Qed.

(** X13: the number of a constructed trajectory is read off the last five
    characters of its prefix: five decimal digits give their value, and a
    dash followed by four digits gives the negated value, as the dash is
    taken for a sign. *)
Theorem trajectory_number_of_suffix (fs : filesystem) (stem : string) (ds : list nat)
    (quiet : bool) (log : list event) (loaded : Trajectory) :
  Forall (fun d => (d < 10)%nat) ds ->
  (length ds = 5%nat ->
   new_Trajectory fs (stem +:+ digits_string ds) quiet = (log, Done loaded) ->
   trajectory_number_ loaded = decimal 0 ds)
  /\ (length ds = 4%nat ->
      new_Trajectory fs (stem +:+ String "-" (digits_string ds)) quiet = (log, Done loaded) ->
      trajectory_number_ loaded = - decimal 0 ds).
Proof.
  intros Hall. split; intros Hlen H;
    apply new_Trajectory_done in H as (str & l0 & ? & ? & ? & ? & ? & ? & ? & ? & Hfive & Hnum & _).
  - rewrite last_five_suffix in Hfive by (rewrite length_digits_string; exact Hlen).
    injection Hfive as <-. destruct ds as [ | d ds]; [ discriminate | ].
    rewrite stoi_digits in Hnum by (auto; cbn in Hlen; lia). congruence.
  - rewrite last_five_suffix in Hfive by (cbn; rewrite length_digits_string; lia).
    injection Hfive as <-. destruct ds as [ | d ds]; [ discriminate | ].
    rewrite stoi_minus_digits in Hnum by (auto; cbn in Hlen; lia). congruence.
Qed.

(** ** The number is parsed before any file is read *)

Lemma defined_table_failure {A} (o : option A) l f :
  defined o = (l, Stop f) -> table_failure f.
Proof. intros H. apply defined_stop in H as ->. exact I. Qed.

Lemma load_rows_stop pending : forall row_num matrix dt_ l f,
  load_rows pending row_num matrix dt_ = (l, Stop f) -> table_failure f.
Proof.
  induction pending as [ | rowFields pending IH]; intros row_num matrix dt_ l f H;
    cbn [load_rows] in H; [ discriminate | ].
  apply bind_stop in H as [H | (? & m & ? & _ & H & _)];
    [ eapply defined_table_failure, H | ].
  destruct (row_num =? 1).
  { apply bind_stop in H as [H | (? & a & ? & _ & H & _)];
      [ eapply defined_table_failure, H | ].
    apply bind_stop in H as [H | (? & b & ? & _ & H & _)];
      [ eapply defined_table_failure, H | ].
    eapply IH, H. }
  destruct (1 <? row_num); [ | eapply IH, H ].
  apply bind_stop in H as [H | (? & a & ? & _ & H & _)];
    [ eapply defined_table_failure, H | ].
  apply bind_stop in H as [H | (? & b & ? & _ & H & _)];
    [ eapply defined_table_failure, H | ].
  destruct (five_epsilon <? _ - _ - dt_)%float; [ | eapply IH, H ].
  cbn in H. injection H as _ <-. exact I.
Qed.

Lemma LoadMatrixFromCSV_stop fs filename matrix quiet dt_ l f :
  LoadMatrixFromCSV fs filename matrix quiet dt_ = (l, Stop f) -> table_failure f.
Proof.
  unfold LoadMatrixFromCSV. intros H.
  apply bind_stop in H as [H | (? & ? & ? & _ & H & _)]; [ now destruct quiet | ].
  apply bind_stop in H as [H | (? & ? & ? & _ & H & _)]; [ discriminate | ].
  destruct (header_fields (fs filename)); [ | discriminate ].
  apply bind_stop in H as [H | (? & ? & ? & _ & H & _)];
    [ eapply defined_table_failure, H | ].
  eapply load_rows_stop, H.
Qed.

Lemma check_tables_stop this l f :
  check_tables this = (l, Stop f) -> ~ number_failure f /\ ~ table_failure f.
Proof.
  unfold check_tables, number_failure.
  repeat match goal with |- context [if ?c then _ else _] => destruct c end;
    intros [= _ <-] || discriminate; cbn; intuition discriminate.
Qed.

(** X14: the trajectory number comes before any file. A prefix of fewer than
    five characters ends the construction with the out-of-range exception of
    [substr]; and whenever the construction ends with that exception or with
    the invalid-argument exception of [stoi], nothing was read: the log holds
    the announcement of the load, or nothing when quiet, and no file event. *)
Theorem number_failure_reads_nothing (fs : filesystem) (filename_prefix : string)
    (quiet : bool) :
  ((String.length filename_prefix < 5)%nat ->
   snd (new_Trajectory fs filename_prefix quiet) = Stop OutOfRange)
  /\ (forall log f,
        new_Trajectory fs filename_prefix quiet = (log, Stop f) ->
        number_failure f ->
        log = if quiet then [] else [LoadingTrajectory filename_prefix]).
Proof.
  split.
  - intros Hshort. unfold new_Trajectory, LoadTrajectory, load_tables, last_five.
    destruct (Nat.leb_spec 5 (String.length filename_prefix)); [ lia | ].
    now destruct quiet.
  - intros log f H Hf.
    assert (forall name m dt l, LoadMatrixFromCSV fs name m quiet dt = (l, Stop f) -> False)
      as Htable.
    { intros name m dt l Hl. apply LoadMatrixFromCSV_stop in Hl.
      destruct Hf as [-> | ->]; exact Hl. }
    unfold new_Trajectory, LoadTrajectory in H.
    apply bind_stop in H as [H | (l1 & t1 & l2 & _ & H & _)].
    + unfold load_tables in H.
      apply bind_stop in H as [H | (l0 & [] & l' & Hq & H & ->)]; [ now destruct quiet | ].
      assert (l0 = if quiet then [] else [LoadingTrajectory filename_prefix]) as ->
        by (destruct quiet; now injection Hq as <-).
      apply bind_stop in H as [H | (la & str & lb & Hstr & H & ->)].
      { destruct (last_five filename_prefix); [ discriminate | ].
        injection H as <- _. now rewrite app_nil_r. }
      assert (la = []) as ->
        by (destruct (last_five filename_prefix); [ now injection Hstr as <- | discriminate ]).
      apply bind_stop in H as [H | (lc & num & ld & Hnum & H & ->)].
      { apply (f_equal fst) in H. rewrite stoi_silent in H. cbn [fst] in H. subst lb.
        cbn [app]. now rewrite app_nil_r. }
      exfalso.
      apply bind_stop in H as [H | (? & [xpoints dt1] & ? & _ & H & _)];
        [ exact (Htable _ _ _ _ H) | ].
      apply bind_stop in H as [H | (? & [upoints dt2] & ? & _ & H & _)];
        [ exact (Htable _ _ _ _ H) | ].
      apply bind_stop in H as [H | (? & [kpoints dt3] & ? & _ & H & _)];
        [ exact (Htable _ _ _ _ H) | ].
      apply bind_stop in H as [H | (? & [affine_points dt4] & ? & _ & H & _)];
        [ exact (Htable _ _ _ _ H) | ].
      discriminate H.
    + exfalso.
      apply bind_stop in H as [H | (l3 & t2 & l4 & _ & H & _)].
      * apply check_tables_stop in H as [H _]. exact (H Hf).
      * unfold load_rollout in H. destruct (IsTimeInvariant t2); [ | discriminate ].
        apply bind_stop in H as [H | (? & [r dt5] & ? & _ & H & _)];
          [ exact (Htable _ _ _ _ H) | discriminate ].
Qed.

(** ** Drawing *)

Lemma GetState_length (this : Trajectory) (t : double) (state : list double) :
  GetState this t = Some state ->
  Z.of_nat (length state) = cols (xpoints_ this) - 1.
Proof.
  unfold GetState, vector_tail.
  destruct (GetIndexFromTime this t false) as [index | ]; [ | discriminate ]. cbn.
  destruct (matrix_row (xpoints_ this) index) as [row | ]; [ | discriminate ]. cbn.
  destruct (Z.leb_spec 0 (cols (xpoints_ this) - 1)); [ | discriminate ].
  destruct (Z.leb_spec (cols (xpoints_ this) - 1) (Z.of_nat (length row))); [ | discriminate ].
  cbn. intros [= <-]. rewrite length_drop. lia.
Qed.

Section Drawing.

Variable BotTrans : Type.
Variable bot_trans_apply_vec : BotTrans -> double * double * double -> double * double * double.

(** X15: [GetTransformedPoint] transforms the first three state coordinates.
    On a constructed trajectory with fewer than three states it is undefined
    at every time; with three or more, at a valid index, it is the transform
    applied to the columns 1, 2 and 3 of that row of the state table. *)
Theorem GetTransformedPoint_of_state (fs : filesystem) (filename_prefix : string)
    (quiet : bool) (log : list event) (loaded : Trajectory) (t : double)
    (transform : BotTrans) :
  new_Trajectory fs filename_prefix quiet = (log, Done loaded) ->
  (dimension_ loaded < 3 ->
   GetTransformedPoint BotTrans bot_trans_apply_vec loaded t transform = None)
  /\ (forall index,
        3 <= dimension_ loaded ->
        GetIndexFromTime loaded t false = Some index ->
        0 <= index < rows (xpoints_ loaded) ->
        exists row x y z,
          coeffs (xpoints_ loaded) !! Z.to_nat index = Some row
          /\ row !! 1%nat = Some x /\ row !! 2%nat = Some y /\ row !! 3%nat = Some z
          /\ GetTransformedPoint BotTrans bot_trans_apply_vec loaded t transform
             = Some (bot_trans_apply_vec transform (x, y, z))).
Proof.
  intros Hnew. destruct (LoadTrajectory_done _ _ _ _ _ _ Hnew) as (Hd & _). split.
  - intros Hlow. unfold GetTransformedPoint.
    destruct (GetState loaded t) as [state | ] eqn:Hstate; [ | reflexivity ].
    apply GetState_length in Hstate. cbn.
    destruct (state !! 0%nat); [ | reflexivity ]. cbn.
    destruct (state !! 1%nat); [ | reflexivity ]. cbn.
    assert (length state <= 2)%nat as Hshort by lia.
    rewrite (lookup_ge_None_2 state 2 Hshort). reflexivity.
  - intros index Hdim Hindex Hrange.
    pose proof (as_loaded_shaped _ _ _ (proj1 (new_Trajectory_tables _ _ _ _ _ Hnew))) as Hshape.
    destruct (GetState_at loaded t index Hshape Hindex Hrange) as (row & Hrow & Hstate & Hlen).
    destruct (lookup_lt_is_Some_2 (drop 1 row) 0) as [x Hx]; [ lia | ].
    destruct (lookup_lt_is_Some_2 (drop 1 row) 1) as [y Hy]; [ lia | ].
    destruct (lookup_lt_is_Some_2 (drop 1 row) 2) as [z Hz]; [ lia | ].
    exists row, x, y, z. unfold GetTransformedPoint.
    rewrite Hstate. cbn [mbind option_bind]. rewrite Hx, Hy, Hz.
    rewrite lookup_drop in Hx, Hy, Hz. auto.
Qed.

Lemma plot_vertices_calls (this : Trajectory) (transform : BotTrans) (todo : nat) :
  forall i calls,
    plot_vertices BotTrans bot_trans_apply_vec this transform todo i = Some calls ->
    length calls = todo
    /\ forall k, (k < todo)%nat ->
         exists x y z,
           GetTransformedPoint BotTrans bot_trans_apply_vec this
             (Double.of_int (i + Z.of_nat k)) transform = Some (x, y, z)
           /\ calls !! k
              = Some (bot_lcmgl_vertex3f (Double.to_float x) (Double.to_float y)
                        (Double.to_float z)).
Proof.
  induction todo as [ | todo IH]; intros i calls; cbn [plot_vertices].
  - intros [= <-]. split; [ reflexivity | intros k Hk; lia ].
  - destruct (GetTransformedPoint _ _ this (Double.of_int i) transform) as [[[x y] z] | ] eqn:Hp;
      [ | discriminate ]. cbn.
    destruct (plot_vertices _ _ this transform todo (i + 1)) as [rest | ] eqn:Hrest;
      [ | discriminate ]. cbn.
    intros [= <-]. destruct (IH _ _ Hrest) as [Hlen Hk]. split; [ cbn; lia | ].
    intros [ | k] Hlt.
    + exists x, y, z. rewrite Z.add_0_r. auto.
    + destruct (Hk k ltac:(lia)) as (x' & y' & z' & Hp' & Hc).
      exists x', y', z'. split; [ | exact Hc ].
      replace (i + Z.of_nat (S k)) with (i + 1 + Z.of_nat k) by lia. exact Hp'.
Qed.

(** X16: a drawing that completes is one line strip: the line width 2, the
    begin of the strip, one vertex per coefficient of the state table (rows
    times columns of them, not one per row) and the end of the strip. Vertex
    number k is the transformed point at the time k, the loop counter passed
    as a time, with its coordinates narrowed to [float]. *)
Theorem PlotTransformedTrajectory_calls (this : Trajectory) (transform : BotTrans)
    (calls : list lcmgl_call) :
  PlotTransformedTrajectory BotTrans bot_trans_apply_vec this transform = Some calls ->
  exists vertices,
    calls = [bot_lcmgl_line_width 2%float; bot_lcmgl_begin_LINE_STRIP]
              ++ vertices ++ [bot_lcmgl_end]
    /\ length vertices = Z.to_nat (rows (xpoints_ this) * cols (xpoints_ this))
    /\ forall k, (k < length vertices)%nat ->
         exists x y z,
           GetTransformedPoint BotTrans bot_trans_apply_vec this
             (Double.of_int (Z.of_nat k)) transform = Some (x, y, z)
           /\ vertices !! k
              = Some (bot_lcmgl_vertex3f (Double.to_float x) (Double.to_float y)
                        (Double.to_float z)).
Proof.
  unfold PlotTransformedTrajectory.
  destruct (plot_vertices _ _ this transform _ 0) as [vertices | ] eqn:Hv; [ | discriminate ].
  cbn [mbind option_bind]. intros [= <-]. exists vertices.
  destruct (plot_vertices_calls _ _ _ _ _ Hv) as [Hlen Hk].
  split; [ reflexivity | ]. split; [ exact Hlen | ].
  intros k Hlt. rewrite Hlen in Hlt. exact (Hk k Hlt).
Qed.

End Drawing.

(** ** Timestamps *)

Lemma loaded_tables_hold_files_x fs filename_prefix quiet log loaded :
  new_Trajectory fs filename_prefix quiet = (log, Done loaded) ->
  forall nx, regular nx (fs (filename_prefix +:+ "-x.csv")) ->
  xpoints_ loaded = table_of (fs (filename_prefix +:+ "-x.csv")) nx.
Proof.
  intros H nx Hreg.
  apply new_Trajectory_done in H
    as (str & l0 & dt1 & ? & ? & ? & l1 & ? & ? & ? & _ & _ & _ & Hx & _).
  now apply (LoadMatrixFromCSV_regular_done _ _ _ _ _ _ _ _ _ Hreg) in Hx.
Qed.

(** X17: the timestamps of a constructed trajectory are the first fields of
    its state file, when that file is regular: [GetTimeAtIndex] returns the
    first field of the row [index], and is undefined for an index outside the
    file's rows; [GetMaxTime] returns the first field of the last row, and
    is undefined when the file has no row. *)
Theorem GetTimeAtIndex_of_file (fs : filesystem) (filename_prefix : string) (quiet : bool)
    (log : list event) (loaded : Trajectory) (nx : nat) :
  new_Trajectory fs filename_prefix quiet = (log, Done loaded) ->
  regular nx (fs (filename_prefix +:+ "-x.csv")) ->
  let body := data_rows (fs (filename_prefix +:+ "-x.csv")) in
  (forall index, 0 <= index ->
     GetTimeAtIndex loaded index = time_of <$> body !! Z.to_nat index)
  /\ (forall index, index < 0 -> GetTimeAtIndex loaded index = None)
  /\ GetMaxTime loaded = time_of <$> last body.
Proof.
  intros Hnew Hreg. cbv zeta. unfold GetTimeAtIndex, GetMaxTime.
  rewrite (loaded_tables_hold_files_x fs filename_prefix quiet log loaded Hnew nx Hreg).
  destruct Hreg as (_ & Hn & _ & Hall). unfold table_of, rows, coeff. cbn [coeffs].
  set (body := data_rows (fs (filename_prefix +:+ "-x.csv"))) in *. clearbody body.
  assert (forall index, 0 <= index ->
            (row ← body !! Z.to_nat index; row !! Z.to_nat 0)
            = time_of <$> body !! Z.to_nat index) as Hcoeff.
  { intros index Hindex.
    destruct (body !! Z.to_nat index) as [row | ] eqn:Hrow; [ | reflexivity ]. cbn.
    pose proof (proj1 (Forall_lookup _ _) Hall _ _ Hrow) as Hlen. cbn in Hlen.
    destruct row; [ cbn in Hlen; lia | reflexivity ]. }
  repeat split.
  - intros index Hindex. destruct (Z.leb_spec 0 index); [ | lia ]. now apply Hcoeff.
  - intros index Hneg. destruct (Z.leb_spec 0 index); [ lia | reflexivity ].
  - rewrite last_lookup. destruct body as [ | r0 rest]; [ reflexivity | ].
    destruct (Z.leb_spec 0 (Z.of_nat (length (r0 :: rest)) - 1)); [ | cbn [length] in *; lia ].
    cbn [andb Z.leb Z.compare]. rewrite Hcoeff by assumption.
    f_equal. f_equal. cbn [length]. lia.
Qed.

(** ** Sample loads *)

(** C1 against the code: on timestamps 1, 1.5, 2 the first timestamp maps to
    index 4 and the last to index 6, where the rows are 0, 1, 2; and on
    timestamps 0, 0.05, ..., 0.25 the last timestamp maps to index 6, one
    past the last row 5. *)
Theorem GetIndexFromTime_endpoints_off :
  (let load := new_Trajectory (disk_of_times [1; 1.5; 2]%float) "traj-00001" true in
   snd load = Done (loaded_of load)
   /\ rows (xpoints_ (loaded_of load)) = 3
   /\ GetTimeAtIndex (loaded_of load) 0 = Some 1%float
   /\ GetMaxTime (loaded_of load) = Some 2%float
   /\ GetIndexFromTime (loaded_of load) 1%float false = Some 4
   /\ GetIndexFromTime (loaded_of load) 2%float false = Some 6)
  /\ (let load := new_Trajectory (disk_of_times [0; 0.05; 0.1; 0.15; 0.2; 0.25]%float)
                    "traj-00001" true in
      snd load = Done (loaded_of load)
      /\ rows (xpoints_ (loaded_of load)) = 6
      /\ GetTimeAtIndex (loaded_of load) 0 = Some 0%float
      /\ GetMaxTime (loaded_of load) = Some 0.25%float
      /\ GetIndexFromTime (loaded_of load) 0%float false = Some 0
      /\ GetIndexFromTime (loaded_of load) 0.25%float false = Some 6).
Proof. cbv zeta. repeat split; vm_compute; reflexivity. Qed.

(** C7 against the code: on timestamps 0, 0.05, ..., 0.25 the last timestamp
    maps to index 6, one past the six rows of the gain table, so the gain
    matrix at that time is a read outside the table, where the time 0.1 has
    the one-by-one gain of its row; and on timestamps 1, 1.5, 2 the gain
    matrix is undefined at every one of the three sampled times. *)
Theorem GetGainMatrix_undefined_at_last_time :
  (let load := new_Trajectory (disk_of_times [0; 0.05; 0.1; 0.15; 0.2; 0.25]%float)
                 "traj-00001" true in
   snd load = Done (loaded_of load)
   /\ rows (kpoints_ (loaded_of load)) = 6
   /\ dimension_ (loaded_of load) = 1 /\ udimension_ (loaded_of load) = 1
   /\ GetMaxTime (loaded_of load) = Some 0.25%float
   /\ GetIndexFromTime (loaded_of load) 0.25%float false = Some 6
   /\ matrix_row (kpoints_ (loaded_of load)) 6 = None
   /\ GetGainMatrix (loaded_of load) 0.25%float = None
   /\ GetGainMatrix (loaded_of load) 0.1%float
      = Some {| cols := 1; coeffs := [[0.1]]%float |})
  /\ (let load := new_Trajectory (disk_of_times [1; 1.5; 2]%float) "traj-00001" true in
      snd load = Done (loaded_of load)
      /\ rows (kpoints_ (loaded_of load)) = 3
      /\ GetGainMatrix (loaded_of load) 1%float = None
      /\ GetGainMatrix (loaded_of load) 1.5%float = None
      /\ GetGainMatrix (loaded_of load) 2%float = None).
Proof. cbv zeta. repeat split; vm_compute; reflexivity. Qed.

(** C3 against the code: on timestamps 1, 1.5, 2 the time 2 maps to index 6
    and the later time 3 to index 2; and on timestamps 0, 0.05, ..., 0.3 the
    time 0.25 maps to index 6 and the later time 0.26 to index 5. *)
Theorem GetIndexFromTime_not_monotone :
  (let load := new_Trajectory (disk_of_times [1; 1.5; 2]%float) "traj-00001" true in
   snd load = Done (loaded_of load)
   /\ (2 <=? 3)%float = true
   /\ GetIndexFromTime (loaded_of load) 2%float false = Some 6
   /\ GetIndexFromTime (loaded_of load) 3%float false = Some 2)
  /\ (let load := new_Trajectory (disk_of_times [0; 0.05; 0.1; 0.15; 0.2; 0.25; 0.3]%float)
                    "traj-00001" true in
      snd load = Done (loaded_of load)
      /\ (0.25 <=? 0.26)%float = true
      /\ GetMaxTime (loaded_of load) = Some 0.3%float
      /\ GetIndexFromTime (loaded_of load) 0.25%float false = Some 6
      /\ GetIndexFromTime (loaded_of load) 0.26%float false = Some 5).
Proof. cbv zeta. repeat split; vm_compute; reflexivity. Qed.

(** C4 against the code: state-table timestamps 0, 0.05, 0.1, 0.1 load
    although the last difference is 0.05 short of the step, far more than
    five machine epsilons; timestamps 0, 0.05, 0.1, 0.2 stop the load at row
    3 with residual 0.05. *)
Theorem spacing_check_one_sided :
  let good := [0; 0.05; 0.1; 0.15]%float in
  (let load := new_Trajectory (disk_of_tables [0; 0.05; 0.1; 0.1]%float good good good)
                 "traj-00001" true in
   snd load = Done (loaded_of load)
   /\ GetTimeAtIndex (loaded_of load) 2 = Some 0.1%float
   /\ GetTimeAtIndex (loaded_of load) 3 = Some 0.1%float
   /\ dt_ (loaded_of load) = 0.05%float
   /\ (five_epsilon <? abs (0.1 - 0.1 - 0.05))%float = true)
  /\ snd (new_Trajectory (disk_of_tables [0; 0.05; 0.1; 0.2]%float good good good)
            "traj-00001" true)
     = Stop (NonConstantDt 3 0.05 (0.2 - 0.1) (0.2 - 0.1 - 0.05))%float
  /\ (0.2 - 0.1 - 0.05 =? 0.05)%float = true.
Proof. cbv zeta. repeat split; vm_compute; reflexivity. Qed.

(** C8 against the code: with the state file missing and the three other
    files holding a header of one field and no row, the load prints the
    parser's message and returns a trajectory, of state dimension -1; with
    all four files missing it stops on the gain-table column check. *)
Theorem missing_file_not_fatal :
  (let load := new_Trajectory
                 (disk "traj-00001" missing_file (table 1 []) (table 1 []) (table 1 [])
                       missing_file)
                 "traj-00001" true in
   snd load = Done (loaded_of load)
   /\ fst load = [ReadFile "traj-00001-x.csv"; ParserError "traj-00001-x.csv";
                  ReadFile "traj-00001-u.csv"; ReadFile "traj-00001-controller.csv";
                  ReadFile "traj-00001-affine.csv"; ReadFile "traj-00001-rollout.csv";
                  ParserError "traj-00001-rollout.csv"]
   /\ xpoints_ (loaded_of load) = empty_matrix
   /\ dimension_ (loaded_of load) = -1)
  /\ snd (new_Trajectory (fun _ => missing_file) "traj-00001" true)
     = Stop (GainColumns (-1) (-1) 2 0).
Proof. cbv zeta. repeat split; vm_compute; reflexivity. Qed.

(** The scenario of the specification: a gain table of 101 rows beside a
    state table of 100 rows. *)
Example row_count_mismatch :
  snd (new_Trajectory
         (disk_of_tables (half_steps 100) (half_steps 100) (half_steps 101) (half_steps 100))
         "traj-00001" true)
  = Stop (RowCounts 100 100 101 100).
Proof. vm_compute. reflexivity. Qed.

(** The schema check at work: 100 rows in every table load consistently, and
    101 gain rows beside 100 state rows end in a schema failure. *)
Lemma LoadTrajectory_schema_witness :
  let fs :=
    disk_of_tables (half_steps 100) (half_steps 100) (half_steps 101) (half_steps 100) in
  let read := load_tables fs default_Trajectory "traj-00001" true in
  (let good := LoadTrajectory (disk_of_times (half_steps 100)) default_Trajectory
                 "traj-00001" true in
   cols (kpoints_ (loaded_of good)) = dimension_ (loaded_of good) * udimension_ (loaded_of good) + 1
   /\ rows (xpoints_ (loaded_of good)) = rows (kpoints_ (loaded_of good)))
  /\ ~ tables_consistent (loaded_of read)
  /\ exists f, snd (LoadTrajectory fs default_Trajectory "traj-00001" true) = Stop f
               /\ schema_error (loaded_of read) f.
Proof.
  cbv zeta.
  assert (~ tables_consistent
            (loaded_of (load_tables
               (disk_of_tables (half_steps 100) (half_steps 100) (half_steps 101)
                  (half_steps 100)) default_Trajectory "traj-00001" true))) as Hbad.
  { intros (_ & _ & _ & H & _). vm_compute in H. discriminate H. }
  split; [ | split; [ exact Hbad | ] ].
  - destruct (proj1 (LoadTrajectory_schema (disk_of_times (half_steps 100)) default_Trajectory
                       "traj-00001" true)
                (fst (LoadTrajectory (disk_of_times (half_steps 100)) default_Trajectory
                        "traj-00001" true))
                (loaded_of (LoadTrajectory (disk_of_times (half_steps 100)) default_Trajectory
                        "traj-00001" true)))
      as (_ & _ & Hk & _ & _ & Hr & _); [ vm_compute; reflexivity | ].
    split; assumption.
  - eapply (proj2 (LoadTrajectory_schema _ default_Trajectory "traj-00001" true));
      [ | exact Hbad ].
    vm_compute. reflexivity.
Defined.


(** A constant gain over four rows is time-invariant and its rollout is read,
    three rows on a time base of their own; a gain that follows the time is
    not, and no rollout is read. *)
Example constant_gain_rollout :
  let load := new_Trajectory constant_gain_disk "traj-00001" true in
  IsTimeInvariant (loaded_of load) = true
  /\ rows (xpoints_rollout_ (loaded_of load)) = 3
  /\ GetRolloutState (loaded_of load) 5%float = Some [2%float]
  /\ IsTimeInvariant
       (loaded_of (new_Trajectory (disk_of_times [0; 0.5; 1; 1.5]%float) "traj-00001" true))
     = false.
Proof. cbv zeta. repeat split; vm_compute; reflexivity. Qed.

Lemma two_by_two_disk_headers : headers_nonempty two_by_two_disk.
Proof.
  intros filename n. unfold two_by_two_disk, disk.
  repeat destruct (String.eqb filename _); cbn; intros [= <-]; lia.
Qed.

(** The gain matrix of the two-by-two trajectory at its second sample. *)
Lemma GetGainMatrix_unpacks_witness :
  let load := new_Trajectory two_by_two_disk "traj-00002" true in
  exists k_mat,
    GetGainMatrix (loaded_of load) 0.5%float = Some k_mat
    /\ rows k_mat = udimension_ (loaded_of load)
    /\ cols k_mat = dimension_ (loaded_of load)
    /\ well_shaped k_mat
    /\ forall i j, 0 <= i < udimension_ (loaded_of load) ->
                   0 <= j < dimension_ (loaded_of load) ->
         exists v, coeff k_mat i j = Some v
                   /\ coeff (kpoints_ (loaded_of load)) 1
                        (i * dimension_ (loaded_of load) + 1 + j) = Some v.
Proof.
  cbv zeta.
  apply (GetGainMatrix_unpacks two_by_two_disk "traj-00002" true
           (fst (new_Trajectory two_by_two_disk "traj-00002" true))).
  - exact two_by_two_disk_headers.
  - vm_compute. reflexivity.
  - vm_compute. reflexivity.
  - split; [ lia | vm_compute; reflexivity ].
Defined.

(** The gain matrix at the second sample of the two-by-two trajectory. *)
Example two_by_two_gain :
  GetGainMatrix (loaded_of (new_Trajectory two_by_two_disk "traj-00002" true)) 0.5%float
  = Some {| cols := 2; coeffs := [[31; 32]; [41; 42]]%float |}.
Proof. vm_compute. reflexivity. Qed.

(** Two rows whose timestamps go backwards load, with a negative step. *)
Lemma LoadMatrixFromCSV_two_rows_witness :
  (length (data_rows (two_row_disk "short.csv")) <= 2)%nat
  /\ snd (LoadMatrixFromCSV two_row_disk "short.csv" empty_matrix true 0%float)
     = Done ({| cols := 1; coeffs := [[5]; [-3]]%float |}, (-3 - 5)%float)
  /\ forall r d x y,
       snd (LoadMatrixFromCSV two_row_disk "short.csv" empty_matrix true 0%float)
       <> Stop (NonConstantDt r d x y).
Proof.
  split; [ cbn; lia | ]. split; [ vm_compute; reflexivity | ].
  apply (proj2 (LoadMatrixFromCSV_two_rows_no_spacing_error two_row_disk "short.csv"
                  empty_matrix true 0%float)).
  cbn. lia.
Defined.

Lemma gap_table_regular :
  regular 2 (disk_of_times [0; 0.05; 0.1; 0.2]%float "traj-00001-x.csv").
Proof.
  unfold regular. split; [ vm_compute; reflexivity | ]. split; [ lia | ].
  split; [ vm_compute; reflexivity | ]. vm_compute. repeat constructor.
Qed.

(** The scenario of the specification as a scan: timestamps 0, 0.05, 0.1,
    0.2 stop at row 3. *)
Lemma LoadMatrixFromCSV_regular_witness :
  let fs := disk_of_times [0; 0.05; 0.1; 0.2]%float in
  regular 2 (fs "traj-00001-x.csv")
  /\ snd (LoadMatrixFromCSV fs "traj-00001-x.csv" empty_matrix true 0%float)
     = Stop (NonConstantDt 3 0.05 (0.2 - 0.1) (0.2 - 0.1 - 0.05))%float.
Proof.
  cbv zeta. split; [ exact gap_table_regular | ].
  rewrite (LoadMatrixFromCSV_regular _ _ _ _ _ 2 gap_table_regular).
  vm_compute. reflexivity.
Defined.

(** Clamping on timestamps 0, 0.5, 1, 1.5. *)
Lemma GetIndexFromTime_clamps_witness :
  let this := loaded_of (new_Trajectory (disk_of_times [0; 0.5; 1; 1.5]%float) "traj-00001" true) in
  GetIndexFromTime this (-1)%float false = Some 0
  /\ GetIndexFromTime this 5%float false = Some (rows (xpoints_ this) - 1).
Proof.
  intros this.
  destruct (GetIndexFromTime_clamps this (-1)%float 0%float 1.5%float false) as [Hlow _];
    [ vm_compute; reflexivity | vm_compute; reflexivity | ].
  destruct (GetIndexFromTime_clamps this 5%float 0%float 1.5%float false) as [_ Hhigh];
    [ vm_compute; reflexivity | vm_compute; reflexivity | ].
  split; [ apply Hlow | apply Hhigh ]; vm_compute; reflexivity.
Defined.

(** Time 0 on timestamps 0, 0.05, 0.1, 0.15. *)
Lemma GetIndexFromTime_zero_witness :
  GetIndexFromTime
    (loaded_of (new_Trajectory (disk_of_times [0; 0.05; 0.1; 0.15]%float) "traj-00001" true))
    0%float false = Some 0.
Proof.
  apply (GetIndexFromTime_zero _ 0.15%float); vm_compute; reflexivity.
Defined.

(** The tables of the two-by-two trajectory are the rows of its files. *)
Lemma loaded_tables_hold_files_witness :
  let load := new_Trajectory two_by_two_disk "traj-00002" true in
  holds_file two_by_two_disk ("traj-00002" +:+ "-x.csv") (xpoints_ (loaded_of load))
  /\ xpoints_ (loaded_of load)
     = {| cols := 3; coeffs := [[0; 1; 2]; [0.5; 3; 4]]%float |}
  /\ xpoints_rollout_ (loaded_of load) = empty_matrix.
Proof.
  cbv zeta.
  destruct (loaded_tables_hold_files two_by_two_disk "traj-00002" true
              (fst (new_Trajectory two_by_two_disk "traj-00002" true))
              (loaded_of (new_Trajectory two_by_two_disk "traj-00002" true)))
    as (Hx & _ & _ & _ & Hr); [ vm_compute; reflexivity | ].
  split; [ exact Hx | ]. split; [ vm_compute; reflexivity | ].
  vm_compute. reflexivity.
Defined.

Lemma mixed_step_disk_readable suffix :
  suffix ∈ ["-x.csv"; "-u.csv"; "-controller.csv"; "-affine.csv"; "-rollout.csv"] ->
  readable (mixed_step_disk ("traj-00001" +:+ suffix)).
Proof.
  intros Hin. repeat (apply elem_of_cons in Hin as [-> | Hin]).
  1-4: right; exists 2%nat; unfold regular;
       (split; [ vm_compute; reflexivity | ]); (split; [ lia | ]);
       (split; [ vm_compute; reflexivity | ]); vm_compute; repeat constructor.
  - left. vm_compute. reflexivity.
  - now apply elem_of_nil in Hin.
Qed.

(** The step of the affine table, 1, is the one the trajectory keeps, though
    its state table is on a step of 0.5. *)
Lemma loaded_step_of_last_table_witness :
  dt_ (loaded_of (new_Trajectory mixed_step_disk "traj-00001" true)) = 1%float.
Proof.
  rewrite (loaded_step_of_last_table mixed_step_disk "traj-00001" true
             (fst (new_Trajectory mixed_step_disk "traj-00001" true))
             (loaded_of (new_Trajectory mixed_step_disk "traj-00001" true))).
  - vm_compute. reflexivity.
  - vm_compute. reflexivity.
  - exact mixed_step_disk_readable.
Defined.

Lemma half_second_loadable :
  loadable (disk_of_times [0; 0.5; 1; 1.5]%float) "traj-00001" 1 2 2.
Proof.
  assert (forall suffix,
            suffix ∈ ["-x.csv"; "-u.csv"; "-controller.csv"; "-affine.csv"] ->
            regular 2 (disk_of_times [0; 0.5; 1; 1.5]%float ("traj-00001" +:+ suffix))) as Hreg.
  { intros suffix Hin. repeat (apply elem_of_cons in Hin as [-> | Hin]).
    1-4: unfold regular;
         (split; [ vm_compute; reflexivity | ]); (split; [ lia | ]);
         (split; [ vm_compute; reflexivity | ]); vm_compute; repeat constructor.
    now apply elem_of_nil in Hin. }
  split.
  - exists "00001"%string. split; vm_compute; reflexivity.
  - apply Hreg. repeat constructor.
  - apply Hreg. repeat constructor.
  - apply Hreg. repeat constructor.
  - apply Hreg. repeat constructor.
  - vm_compute. auto.
  - intros suffix Hin. repeat (apply elem_of_cons in Hin as [-> | Hin]).
    1-5: vm_compute; reflexivity.
    now apply elem_of_nil in Hin.
  - left. vm_compute. reflexivity.
Qed.

(** A data set of four rows on a step of 0.5 loads. *)
Lemma loadable_loads_witness :
  exists loaded,
    snd (new_Trajectory (disk_of_times [0; 0.5; 1; 1.5]%float) "traj-00001" false) = Done loaded
    /\ trajectory_number_ loaded = 1
    /\ filename_prefix_ loaded = "traj-00001"%string
    /\ dimension_ loaded = Z.of_nat 2 - 1
    /\ udimension_ loaded = Z.of_nat 2 - 1
    /\ xpoints_ loaded
       = table_of (disk_of_times [0; 0.5; 1; 1.5]%float ("traj-00001" +:+ "-x.csv")) 2
    /\ upoints_ loaded
       = table_of (disk_of_times [0; 0.5; 1; 1.5]%float ("traj-00001" +:+ "-u.csv")) 2
    /\ kpoints_ loaded
       = table_of (disk_of_times [0; 0.5; 1; 1.5]%float ("traj-00001" +:+ "-controller.csv"))
           (S ((2 - 1) * (2 - 1)))
    /\ affine_points_ loaded
       = table_of (disk_of_times [0; 0.5; 1; 1.5]%float ("traj-00001" +:+ "-affine.csv")) 2.
Proof.
  exact (loadable_loads _ "traj-00001" false 1 2 2 half_second_loadable).
Defined.

(** The tables of the two-by-two trajectory are rectangular. *)
Lemma loaded_tables_well_shaped_witness :
  let loaded := loaded_of (new_Trajectory two_by_two_disk "traj-00002" true) in
  well_shaped (xpoints_ loaded) /\ well_shaped (upoints_ loaded)
  /\ well_shaped (kpoints_ loaded) /\ well_shaped (affine_points_ loaded)
  /\ well_shaped (xpoints_rollout_ loaded).
Proof.
  cbv zeta.
  apply (loaded_tables_well_shaped two_by_two_disk "traj-00002" true
           (fst (new_Trajectory two_by_two_disk "traj-00002" true))).
  vm_compute. reflexivity.
Defined.

(** The state at the second sample of the two-by-two trajectory. *)
Lemma GetState_row_witness :
  let loaded := loaded_of (new_Trajectory two_by_two_disk "traj-00002" true) in
  GetState loaded 0.5%float = Some [3; 4]%float
  /\ exists row,
       coeffs (xpoints_ loaded) !! Z.to_nat 1 = Some row
       /\ GetState loaded 0.5%float = Some (drop 1 row)
       /\ Z.of_nat (length (drop 1 row)) = dimension_ loaded.
Proof.
  cbv zeta. split; [ vm_compute; reflexivity | ].
  apply (GetState_row two_by_two_disk "traj-00002" true
           (fst (new_Trajectory two_by_two_disk "traj-00002" true))).
  - vm_compute. reflexivity.
  - vm_compute. reflexivity.
  - split; [ lia | vm_compute; reflexivity ].
Defined.

(** The control at the second sample of the two-by-two trajectory. *)
Lemma GetUCommand_row_witness :
  let loaded := loaded_of (new_Trajectory two_by_two_disk "traj-00002" true) in
  GetUCommand loaded 0.5%float = Some [7; 8]%float
  /\ exists row,
       coeffs (upoints_ loaded) !! Z.to_nat 1 = Some row
       /\ GetUCommand loaded 0.5%float = Some (drop 1 row)
       /\ Z.of_nat (length (drop 1 row)) = udimension_ loaded.
Proof.
  cbv zeta. split; [ vm_compute; reflexivity | ].
  apply (GetUCommand_row two_by_two_disk "traj-00002" true
           (fst (new_Trajectory two_by_two_disk "traj-00002" true))).
  - exact two_by_two_disk_headers.
  - vm_compute. reflexivity.
  - vm_compute. reflexivity.
  - split; [ lia | vm_compute; reflexivity ].
Defined.

(** A trajectory that was never loaded answers no query. *)
Lemma empty_state_table_undefined_witness :
  GetIndexFromTime default_Trajectory 0%float false = None
  /\ GetState default_Trajectory 0%float = None
  /\ GetUCommand default_Trajectory 0%float = None
  /\ GetGainMatrix default_Trajectory 0%float = None
  /\ GetMaxTime default_Trajectory = None.
Proof. apply empty_state_table_undefined. reflexivity. Defined.

(** The two-by-two trajectory has a gain that changes and so no rollout. *)
Lemma GetRolloutState_without_rollout_witness :
  let loaded := loaded_of (new_Trajectory two_by_two_disk "traj-00002" true) in
  IsTimeInvariant loaded = false
  /\ xpoints_rollout_ loaded = empty_matrix
  /\ GetIndexFromTime loaded 0%float true = None
  /\ GetRolloutState loaded 0%float = None.
Proof.
  cbv zeta. split; [ vm_compute; reflexivity | ].
  apply (GetRolloutState_without_rollout two_by_two_disk "traj-00002" true
           (fst (new_Trajectory two_by_two_disk "traj-00002" true))).
  - vm_compute. reflexivity.
  - left. vm_compute. reflexivity.
Defined.

(** Tables of one row leave the step at 0, and the query at the only
    timestamp is undefined. *)
Lemma GetIndexFromTime_zero_step_witness :
  let load := new_Trajectory single_row_disk "traj-00004" true in
  snd load = Done (loaded_of load)
  /\ dt_ (loaded_of load) = 0%float
  /\ GetIndexFromTime (loaded_of load) 0%float false = None
  /\ GetState (loaded_of load) 0%float = None.
Proof.
  cbv zeta. split; [ vm_compute; reflexivity | ]. split; [ vm_compute; reflexivity | ].
  apply (GetIndexFromTime_zero_step _ 0%float 0%float 0%float); vm_compute; reflexivity.
Defined.

(** The number of [traj-00001] is 1, and the number of [run-1234] is -1234. *)
Lemma trajectory_number_of_suffix_witness :
  trajectory_number_ (loaded_of (new_Trajectory two_by_two_disk "traj-00002" true))
  = decimal 0 [0; 0; 0; 0; 2]%nat
  /\ trajectory_number_ (loaded_of (new_Trajectory three_state_disk "run-1234" true))
     = - decimal 0 [1; 2; 3; 4]%nat.
Proof.
  split.
  - apply (proj1 (trajectory_number_of_suffix two_by_two_disk "traj-" [0; 0; 0; 0; 2]%nat true
                    (fst (new_Trajectory two_by_two_disk "traj-00002" true)) _
                    ltac:(repeat constructor; lia)));
      [ reflexivity | vm_compute; reflexivity ].
  - apply (proj2 (trajectory_number_of_suffix three_state_disk "run" [1; 2; 3; 4]%nat true
                    (fst (new_Trajectory three_state_disk "run-1234" true)) _
                    ltac:(repeat constructor; lia)));
      [ reflexivity | vm_compute; reflexivity ].
Defined.

(** A prefix of four characters, and a prefix that ends in letters. *)
Lemma number_failure_reads_nothing_witness :
  snd (new_Trajectory two_by_two_disk "traj" false) = Stop OutOfRange
  /\ new_Trajectory two_by_two_disk "trajectory" false
     = ([LoadingTrajectory "trajectory"], Stop InvalidArgument).
Proof.
  split.
  - apply (proj1 (number_failure_reads_nothing two_by_two_disk "traj" false)). cbn. lia.
  - assert (snd (new_Trajectory two_by_two_disk "trajectory" false) = Stop InvalidArgument)
      as Hstop by (vm_compute; reflexivity).
    destruct (new_Trajectory two_by_two_disk "trajectory" false) as [log outcome] eqn:Hload.
    cbn [snd] in Hstop. subst outcome.
    now rewrite (proj2 (number_failure_reads_nothing two_by_two_disk "trajectory" false)
                   log InvalidArgument Hload (or_intror eq_refl)).
Defined.

(** The translated point at the second sample of the three-state trajectory,
    and no point at all for the two states of the two-by-two trajectory. *)
Lemma GetTransformedPoint_of_state_witness :
  GetTransformedPoint _ translate
    (loaded_of (new_Trajectory two_by_two_disk "traj-00002" true)) 0%float (1, 1, 1)%float
  = None
  /\ exists row x y z,
       coeffs (xpoints_ (loaded_of (new_Trajectory three_state_disk "run-1234" true)))
         !! Z.to_nat 1 = Some row
       /\ row !! 1%nat = Some x /\ row !! 2%nat = Some y /\ row !! 3%nat = Some z
       /\ GetTransformedPoint _ translate
            (loaded_of (new_Trajectory three_state_disk "run-1234" true)) 1%float
            (10, 20, 30)%float
          = Some (translate (10, 20, 30)%float (x, y, z)).
Proof.
  split.
  - apply (proj1 (GetTransformedPoint_of_state _ translate two_by_two_disk "traj-00002" true
                    (fst (new_Trajectory two_by_two_disk "traj-00002" true)) _ 0%float
                    (1, 1, 1)%float ltac:(vm_compute; reflexivity))).
    vm_compute. reflexivity.
  - apply (proj2 (GetTransformedPoint_of_state _ translate three_state_disk "run-1234" true
                    (fst (new_Trajectory three_state_disk "run-1234" true)) _ 1%float
                    (10, 20, 30)%float ltac:(vm_compute; reflexivity))).
    + vm_compute. discriminate.
    + vm_compute. reflexivity.
    + split; [ lia | vm_compute; reflexivity ].
Defined.

(** The drawing of the three-state trajectory: eight vertices for a table of
    two rows and four columns, the times 2 to 7 all past its end. *)
Lemma PlotTransformedTrajectory_calls_witness :
  let this := loaded_of (new_Trajectory three_state_disk "run-1234" true) in
  PlotTransformedTrajectory _ translate this (0, 0, 0)%float
  = Some ([bot_lcmgl_line_width 2; bot_lcmgl_begin_LINE_STRIP;
           bot_lcmgl_vertex3f 1 2 3; bot_lcmgl_vertex3f 4 5 6; bot_lcmgl_vertex3f 4 5 6;
           bot_lcmgl_vertex3f 4 5 6; bot_lcmgl_vertex3f 4 5 6; bot_lcmgl_vertex3f 4 5 6;
           bot_lcmgl_vertex3f 4 5 6; bot_lcmgl_vertex3f 4 5 6; bot_lcmgl_end]%float)
  /\ exists vertices,
       [bot_lcmgl_line_width 2; bot_lcmgl_begin_LINE_STRIP;
        bot_lcmgl_vertex3f 1 2 3; bot_lcmgl_vertex3f 4 5 6; bot_lcmgl_vertex3f 4 5 6;
        bot_lcmgl_vertex3f 4 5 6; bot_lcmgl_vertex3f 4 5 6; bot_lcmgl_vertex3f 4 5 6;
        bot_lcmgl_vertex3f 4 5 6; bot_lcmgl_vertex3f 4 5 6; bot_lcmgl_end]%float
       = [bot_lcmgl_line_width 2%float; bot_lcmgl_begin_LINE_STRIP] ++ vertices ++ [bot_lcmgl_end]
       /\ length vertices = Z.to_nat (rows (xpoints_ this) * cols (xpoints_ this))
       /\ forall k, (k < length vertices)%nat ->
            exists x y z,
              GetTransformedPoint _ translate this (Double.of_int (Z.of_nat k)) (0, 0, 0)%float
              = Some (x, y, z)
              /\ vertices !! k
                 = Some (bot_lcmgl_vertex3f (Double.to_float x) (Double.to_float y)
                           (Double.to_float z)).
Proof.
  intros this. split; [ vm_compute; reflexivity | ].
  apply (PlotTransformedTrajectory_calls _ translate this (0, 0, 0)%float).
  vm_compute. reflexivity.
Defined.

(** The timestamps of the two-by-two trajectory are those of its state
    file. *)
Lemma GetTimeAtIndex_of_file_witness :
  let loaded := loaded_of (new_Trajectory two_by_two_disk "traj-00002" true) in
  let body := data_rows (two_by_two_disk ("traj-00002" +:+ "-x.csv")) in
  (forall index, 0 <= index ->
     GetTimeAtIndex loaded index = time_of <$> body !! Z.to_nat index)
  /\ (forall index, index < 0 -> GetTimeAtIndex loaded index = None)
  /\ GetMaxTime loaded = time_of <$> last body.
Proof.
  cbv zeta.
  apply (GetTimeAtIndex_of_file two_by_two_disk "traj-00002" true
           (fst (new_Trajectory two_by_two_disk "traj-00002" true)) _ 3).
  - vm_compute. reflexivity.
  - unfold regular. split; [ vm_compute; reflexivity | ]. split; [ lia | ].
    split; [ vm_compute; reflexivity | ]. vm_compute. repeat constructor.
Defined.
